(** * Highway network preparation (tm2py, [highway_network.py])

    A shallow embedding of [PrepareNetwork] and of the parts of Python and
    of the Emme network interface that it uses, followed by the properties
    of the toll engine, of [run], of [validate_inputs] and of the mode
    set-up.

    Conventions.
    - Python floats and ints that end up in link attributes are exact
      rationals ([Q]); no rounding error, infinity or NaN is modelled.
    - A Python exception is a value of [exn]; code that can raise returns
      [result]; code that also logs or touches the run-level state lives in
      the state-and-exception monad [M].
    - A dict is a [gmap], a set is a [gset], a [for] loop over a list is a
      monadic fold or map over that list. *)

From Stdlib Require Import QArith Qround ZArith String Ascii List.
From stdpp Require Import base gmap strings list pretty.

Open Scope string_scope.
Open Scope list_scope.

(** ** Exceptions and results *)

Inductive exn : Type :=
| FileNotFoundError (msg : string)   (* builtin, raised by validate_inputs and by open() *)
| FileFormatError (msg : string)     (* tm2py.components.component.FileFormatError *)
| Exception (msg : string)           (* a bare [raise Exception(...)] *)
| KeyError (key : string)            (* d[k] on a missing key *)
| ValueError (msg : string)          (* int() / float() on a malformed string *)
| ZeroDivisionError
| StopIteration                      (* next() on an exhausted file *)
| AttributeError (msg : string)      (* attribute access on None *)
| EmmeError (msg : string).          (* raised by the Emme interface *)

Inductive result (A : Type) : Type :=
| Ok (a : A)
| Raise (e : exn).
Arguments Ok {A} a.
Arguments Raise {A} e.

Global Instance result_ret : MRet result := fun A a => Ok a.
Global Instance result_bind : MBind result := fun A B k r =>
  match r with
  | Ok a => k a
  | Raise e => Raise e
  end.

(** A [for] loop whose body may raise, threading the mutated object. *)
Fixpoint rfold {A B} (body : A -> B -> result A) (xs : list B) (a : A) : result A :=
  match xs with
  | [] => Ok a
  | x :: xs' => a' ← body a x; rfold body xs' a'
  end.

Fixpoint rmap {A B} (body : A -> result B) (xs : list A) : result (list B) :=
  match xs with
  | [] => Ok []
  | x :: xs' =>
      y ← body x; ys ← rmap body xs'; Ok (y :: ys)
  end.

(** ** Python strings *)

Module Py.

(** [str.isspace] on the ASCII range. *)
Definition isspace (c : ascii) : bool :=
  let n := nat_of_ascii c in
  ((9 <=? n) && (n <=? 13) || (28 <=? n) && (n <=? 32))%nat.

Fixpoint lstrip (s : string) : string :=
  match s with
  | String c s' => if isspace c then lstrip s' else s
  | EmptyString => EmptyString
  end.

Fixpoint rstrip (s : string) : string :=
  match s with
  | String c s' =>
      match rstrip s' with
      | EmptyString => if isspace c then EmptyString else String c EmptyString
      | r => String c r
      end
  | EmptyString => EmptyString
  end.

(** [s.strip()] *)
Definition strip (s : string) : string := rstrip (lstrip s).

(** [s.split(sep)] for a one-character separator. *)
Fixpoint split (sep : ascii) (s : string) : list string :=
  match s with
  | EmptyString => [EmptyString]
  | String c s' =>
      if Ascii.eqb c sep then EmptyString :: split sep s'
      else match split sep s' with
           | w :: ws => String c w :: ws
           | [] => [String c EmptyString]
           end
  end.

Definition lower_ascii (c : ascii) : ascii :=
  let n := nat_of_ascii c in
  if ((65 <=? n) && (n <=? 90))%nat then ascii_of_nat (n + 32) else c.

Definition upper_ascii (c : ascii) : ascii :=
  let n := nat_of_ascii c in
  if ((97 <=? n) && (n <=? 122))%nat then ascii_of_nat (n - 32) else c.

Fixpoint map_string (f : ascii -> ascii) (s : string) : string :=
  match s with
  | EmptyString => EmptyString
  | String c s' => String (f c) (map_string f s')
  end.

(** [s.lower()] and [s.upper()], on ASCII letters. *)
Definition lower : string -> string := map_string lower_ascii.
Definition upper : string -> string := map_string upper_ascii.

(** [sep.join(xs)] *)
Definition join (sep : string) (xs : list string) : string := String.concat sep xs.

(** [s[:n]] *)
Fixpoint prefix (n : nat) (s : string) : string :=
  match n, s with
  | S n', String c s' => String c (prefix n' s')
  | _, _ => EmptyString
  end.

(** Iterating a text file yields its lines, each with its newline. *)
Definition newline : ascii := ascii_of_nat 10.

Fixpoint file_lines (s : string) : list string :=
  match s with
  | EmptyString => []
  | String c s' =>
      if Ascii.eqb c newline then String c EmptyString :: file_lines s'
      else match file_lines s' with
           | l :: ls => String c l :: ls
           | [] => [String c EmptyString]
           end
  end.

(** *** Numbers from strings *)

Definition digit (c : ascii) : option Z :=
  let n := nat_of_ascii c in
  if ((48 <=? n) && (n <=? 57))%nat then Some (Z.of_nat (n - 48)) else None.

(** Reads a maximal run of decimal digits: its value continued from [acc],
    how many there were, and the rest of the string. *)
Fixpoint digits (s : string) (acc : Z) (cnt : nat) : Z * nat * string :=
  match s with
  | String c s' =>
      match digit c with
      | Some d => digits s' (acc * 10 + d)%Z (S cnt)
      | None => (acc, cnt, s)
      end
  | EmptyString => (acc, cnt, s)
  end.

Definition sign (s : string) : bool * string :=
  match s with
  | String "-" s' => (true, s')
  | String "+" s' => (false, s')
  | _ => (false, s)
  end.

Definition signed (neg : bool) (z : Z) : Z := if neg then (- z)%Z else z.

(** [int(s)] for a decimal literal with optional sign and surrounding
    white space (digit-group underscores are not modelled). *)
Definition int (s : string) : result Z :=
  let '(neg, body) := sign (strip s) in
  match digits body 0 0 with
  | (v, S _, EmptyString) => Ok (signed neg v)
  | _ => Raise (ValueError ("invalid literal for int() with base 10: " +:+ s))
  end.

(** [m * 10^e] as a rational. *)
Definition scale10 (m e : Z) : Q :=
  match e with
  | Zneg p => Qmake m (10 ^ p)%positive
  | _ => inject_Z (m * 10 ^ e)
  end.

Definition exponent (s : string) : option Z :=
  match s with
  | EmptyString => Some 0%Z
  | String c s' =>
      if Ascii.eqb c "e" || Ascii.eqb c "E" then
        let '(neg, body) := sign s' in
        match digits body 0 0 with
        | (v, S _, EmptyString) => Some (signed neg v)
        | _ => None
        end
      else None
  end.

(** [float(s)] for a finite decimal literal: optional sign, digits with an
    optional fraction, optional exponent, surrounding white space. The
    literals [inf] and [nan] have no rational value and are not modelled. *)
Definition float (s : string) : result Q :=
  let bad := Raise (ValueError ("could not convert string to float: " +:+ s)) in
  let '(neg, body) := sign (strip s) in
  let '(ip, ni, rest) := digits body 0 0 in
  let '(m, nf, rest') :=
    match rest with
    | String "." r => digits r ip 0
    | _ => (ip, 0%nat, rest)
    end in
  match (ni + nf)%nat, exponent rest' with
  | S _, Some e => Ok (scale10 (signed neg m) (e - Z.of_nat nf))
  | _, _ => bad
  end.

(** *** Numbers *)

(** [bool(x)] of a float: nonzero. *)
Definition truthy (x : Q) : bool := negb (Qeq_bool x 0).

Definition lt (x y : Q) : bool :=
  match Qcompare x y with Lt => true | _ => false end.
Definition le (x y : Q) : bool :=
  match Qcompare x y with Gt => false | _ => true end.
Definition gt (x y : Q) : bool := lt y x.
Definition ge (x y : Q) : bool := le y x.
Definition eq (x y : Q) : bool := Qeq_bool x y.

(** [int(x)] of a float truncates toward zero. *)
Definition trunc (x : Q) : Z := Z.quot (Qnum x) (Zpos (Qden x)).

(** [round(x)] of a float: nearest integer, ties to the even one. *)
Definition round (x : Q) : Z :=
  let f := Qfloor x in
  match Qcompare (x - inject_Z f) (1 # 2) with
  | Lt => f
  | Gt => (f + 1)%Z
  | Eq => if Z.even f then f else (f + 1)%Z
  end.

(** [x / y] on floats. *)
Definition div (x y : Q) : result Q :=
  if Qeq_bool y 0 then Raise ZeroDivisionError else Ok (x / y)%Q.

(** [x in d] and [d[k]] for a dict with string keys. *)
Definition getitem {V} (d : gmap string V) (k : string) : result V :=
  match d !! k with
  | Some v => Ok v
  | None => Raise (KeyError k)
  end.

(** *** [repr] of strings and of lists of strings *)

Definition quote1 : ascii := ascii_of_nat 39.
Definition quote2 : ascii := ascii_of_nat 34.
Definition backslash : ascii := ascii_of_nat 92.

Fixpoint contains_char (c : ascii) (s : string) : bool :=
  match s with
  | EmptyString => false
  | String d s' => Ascii.eqb c d || contains_char c s'
  end.

Definition hex_digit (n : nat) : ascii :=
  if (n <? 10)%nat then ascii_of_nat (48 + n) else ascii_of_nat (87 + n).

Fixpoint escape (q : ascii) (s : string) : string :=
  match s with
  | EmptyString => EmptyString
  | String c s' =>
      let n := nat_of_ascii c in
      let esc (d : ascii) := String backslash (String d (escape q s')) in
      if Ascii.eqb c backslash then esc backslash
      else if Ascii.eqb c q then esc q
      else if (n =? 10)%nat then esc "n"%char
      else if (n =? 13)%nat then esc "r"%char
      else if (n =? 9)%nat then esc "t"%char
      else if ((n <? 32) || (n =? 127))%nat then
        String backslash (String "x" (String (hex_digit (n / 16))
          (String (hex_digit (n mod 16)) (escape q s'))))
      else String c (escape q s')
  end.

Definition repr (s : string) : string :=
  let q := if contains_char quote1 s && negb (contains_char quote2 s)
           then quote2 else quote1 in
  String q (escape q s +:+ String q EmptyString).

(** [str(xs)] of a list of strings, as an f-string renders it. *)
Definition repr_list (xs : list string) : string :=
  "[" +:+ join ", " (map repr xs) +:+ "]".

End Py.

(** ** The Emme network, as this component uses it *)

(** A link: its standard fields, its extra attributes (the names starting
    with [@]) and the extra attributes of its two end nodes. *)
Module Link.
Record t : Type := mk {
  id : string;
  length : Q;
  attrs : gmap string Q;
  modes : gset string;
  volume_delay_func : Z;
  num_lanes : Q;
  i_node : gmap string Q;
  j_node : gmap string Q;
}.

Definition not_defined {A} (a : string) : result A :=
  Raise (EmmeError ("attribute not defined: " +:+ a)).

(** [link[a]] *)
Definition get (l : t) (a : string) : result Q :=
  match attrs l !! a with
  | Some v => Ok v
  | None => not_defined a
  end.

Definition with_attrs (l : t) (m : gmap string Q) : t :=
  mk (id l) (length l) m (modes l) (volume_delay_func l) (num_lanes l)
     (i_node l) (j_node l).

(** [link[a] = v]; the attribute has to exist. *)
Definition set (l : t) (a : string) (v : Q) : result t :=
  match attrs l !! a with
  | Some _ => Ok (with_attrs l (<[a := v]> (attrs l)))
  | None => not_defined a
  end.

Definition with_modes (l : t) (ms : gset string) : t :=
  mk (id l) (length l) (attrs l) ms (volume_delay_func l) (num_lanes l)
     (i_node l) (j_node l).

Definition with_volume_delay_func (l : t) (f : Z) : t :=
  mk (id l) (length l) (attrs l) (modes l) f (num_lanes l) (i_node l) (j_node l).

Definition with_num_lanes (l : t) (n : Q) : t :=
  mk (id l) (length l) (attrs l) (modes l) (volume_delay_func l) n
     (i_node l) (j_node l).

(** [node[a]] *)
Definition node_get (n : gmap string Q) (a : string) : result Q :=
  match n !! a with
  | Some v => Ok v
  | None => not_defined a
  end.
End Link.

Record Mode : Type := {
  mode_type : string;
  mode_description : string;
}.

(** A network (and a scenario, which is a published network): the links in
    iteration order, the modes by id, and the descriptions of the extra link
    attributes that were created. *)
Module Network.
Record t : Type := mk {
  links : list Link.t;
  modes : gmap string Mode;
  link_attributes : gmap string string;
}.

Definition with_links (n : t) (ls : list Link.t) : t :=
  mk ls (modes n) (link_attributes n).
Definition with_modes (n : t) (ms : gmap string Mode) : t :=
  mk (links n) ms (link_attributes n).

(** [network.mode(code)]: the mode's id, or [None]. *)
Definition mode (n : t) (code : string) : option string :=
  match modes n !! code with
  | Some _ => Some code
  | None => None
  end.

(** [network.create_mode(type, code)] followed by
    [mode.description = description]; an id can be created once. *)
Definition create_mode (n : t) (type code description : string) : result t :=
  match modes n !! code with
  | Some _ => Raise (EmmeError ("mode already exists: " +:+ code))
  | None =>
      Ok (with_modes n (<[code := {| mode_type := type;
                                     mode_description := description |}]> (modes n)))
  end.

(** [network.delete_mode(mode)]; a mode still on a link cannot go. *)
Definition delete_mode (n : t) (code : string) : result t :=
  if existsb (fun l => bool_decide (code ∈ Link.modes l)) (links n)
  then Raise (EmmeError ("mode in use: " +:+ code))
  else Ok (with_modes n (delete code (modes n))).

(** [create_extra_attribute("LINK", name, desc, overwrite=True)]: the
    attribute exists afterwards and is 0 on every link. *)
Definition create_extra_attribute (n : t) (name desc : string) : t :=
  mk (map (fun l => Link.with_attrs l (<[name := 0%Q]> (Link.attrs l))) (links n))
     (modes n)
     (<[name := desc]> (link_attributes n)).
End Network.

(** ** Configuration *)

Record TollsConfig : Type := {
  file_path : string;
  bridetoll_file_path : string;
  src_vehicle_group_names : list string;
  dst_vehicle_group_names : list string;
  valuetoll_start_tollbooth_code : Z;
  run_dynamic_toll : bool;
  max_dynamic_valuetoll : Q;
}.

Record AssignClass : Type := {
  name : string;
  description : string;
  mode_code : string;
  excluded_links : list string;
  operating_cost_per_mile : Q;
  toll_factor : option Q;
  toll : list string;
}.

Record MazToMaz : Type := {
  maz_mode_code : string;
  maz_excluded_links : list string;
}.

Record CapclassRow : Type := {
  capclass : Z;
  capacity : option Q;
  critical_speed : option Q;
}.

Record MsaConfig : Type := {
  apply_msa : bool;
  write_iteration_flow : bool;
}.

Record TimePeriod : Type := {
  period_name : string;
  highway_capacity_factor : Q;
}.

Record HighwayConfig : Type := {
  tolls : TollsConfig;
  classes : list AssignClass;
  capclass_lookup : list CapclassRow;
  generic_highway_mode_code : string;
  maz_to_maz : option MazToMaz;
  run_maz_assignment : bool;
  msa : MsaConfig;
}.

Record Configuration : Type := {
  highway : HighwayConfig;
  time_periods : list TimePeriod;
  end_iteration : Z;
}.

(** What [PrepareNetwork] inherits from [Component], which is not part of
    this file's source: the controller's configuration, the names of the
    time periods and the resolution of a relative path. *)
Record Component : Type := {
  controller_config : Configuration;
  time_period_names : list string;
  get_abs_path : string -> string;
}.

(** [self.config] *)
Definition config (self : Component) : HighwayConfig :=
  highway (controller_config self).

(** ** Run-level state *)

Record LogRecord : Type := {
  log_method : string;          (* log, warn or debug *)
  log_text : string;
  log_level : option string;    (* the level= argument, when given *)
  log_indent : bool;
}.

(** The methods [run] invokes, recorded in order with their time period. *)
Inductive Call : Type :=
| CreateClassAttributes (time : string)
| SetTolls (time : string)
| SetVdfAttributes (time : string)
| SetLinkModes (time : string)
| CalcLinkSkimLengths (time : string)
| CalcLinkClassCosts (time : string)
| CalcTotalFlow (time : string)
| PublishNetwork (time : string).

Record State : Type := mkState {
  iteration : Z;                       (* controller.iteration *)
  _dynamic_toll_iter : Z;              (* controller._dynamic_toll_iter *)
  _stop_dynamic_toll : bool;           (* controller._stop_dynamic_toll *)
  dynamic_toll_change : Z;             (* self.dynamic_toll_change *)
  emmebank : gmap string Network.t;    (* the scenario of each time period *)
  files : gmap string string;          (* the text files, by absolute path *)
  logged : list LogRecord;             (* what the logger received *)
  calls : list Call;                   (* the methods run invoked *)
}.

(** Code that raises and mutates: an exception leaves the state as it was
    when it was raised. *)
Definition M (A : Type) : Type := State -> result A * State.

Global Instance M_ret : MRet M := fun A a s => (Ok a, s).
Global Instance M_bind : MBind M := fun A B k m s =>
  match m s with
  | (Ok a, s') => k a s'
  | (Raise e, s') => (Raise e, s')
  end.

Definition lift {A} (r : result A) : M A := fun s => (r, s).
Definition read {A} (f : State -> A) : M A := fun s => (Ok (f s), s).
Definition modify (f : State -> State) : M unit := fun s => (Ok tt, f s).

(** A [for] loop in [M] that threads the object it mutates. *)
Fixpoint mfold {A B} (body : A -> B -> M A) (xs : list B) (a : A) : M A :=
  match xs with
  | [] => mret a
  | x :: xs' => a' ← body a x; mfold body xs' a'
  end.

(** A [for] loop in [M] over the elements of a container, each replaced by
    what the body made of it. *)
Fixpoint mmap {A B} (body : A -> M B) (xs : list A) : M (list B) :=
  match xs with
  | [] => mret []
  | x :: xs' => y ← body x; ys ← mmap body xs'; mret (y :: ys)
  end.

(** A [for] loop in [M] run for its effects. *)
Fixpoint mfor {A} (xs : list A) (body : A -> M unit) : M unit :=
  match xs with
  | [] => mret tt
  | x :: xs' => body x;; mfor xs' body
  end.

Definition with_logged (s : State) (l : list LogRecord) : State :=
  mkState (iteration s) (_dynamic_toll_iter s) (_stop_dynamic_toll s)
          (dynamic_toll_change s) (emmebank s) (files s) l (calls s).
Definition with_calls (s : State) (c : list Call) : State :=
  mkState (iteration s) (_dynamic_toll_iter s) (_stop_dynamic_toll s)
          (dynamic_toll_change s) (emmebank s) (files s) (logged s) c.
Definition with_dynamic_toll_change (s : State) (n : Z) : State :=
  mkState (iteration s) (_dynamic_toll_iter s) (_stop_dynamic_toll s)
          n (emmebank s) (files s) (logged s) (calls s).
Definition with_emmebank (s : State) (b : gmap string Network.t) : State :=
  mkState (iteration s) (_dynamic_toll_iter s) (_stop_dynamic_toll s)
          (dynamic_toll_change s) b (files s) (logged s) (calls s).
Definition with__stop_dynamic_toll (s : State) (b : bool) : State :=
  mkState (iteration s) (_dynamic_toll_iter s) b
          (dynamic_toll_change s) (emmebank s) (files s) (logged s) (calls s).
Definition with__dynamic_toll_iter (s : State) (n : Z) : State :=
  mkState (iteration s) n (_stop_dynamic_toll s)
          (dynamic_toll_change s) (emmebank s) (files s) (logged s) (calls s).

(** [self.logger.log(text)], [.log(text, level=...)], [.warn], [.debug] *)
Definition logger (method text : string) (level : option string) (indent : bool) : M unit :=
  modify (fun s => with_logged s (logged s ++ [{| log_method := method; log_text := text;
                                                  log_level := level; log_indent := indent |}])).

Definition called (c : Call) : M unit :=
  modify (fun s => with_calls s (calls s ++ [c])).

(** [open(path, "r")] and reading the whole text. *)
Definition open (path : string) : M string :=
  fun s => match files s !! path with
           | Some text => (Ok text, s)
           | None => (Raise (FileNotFoundError
                        ("[Errno 2] No such file or directory: " +:+ Py.repr path)), s)
           end.

(** [dict(pairs)]: a later pair replaces an earlier one with the same key. *)
Definition dict {V} (pairs : list (string * V)) : gmap string V :=
  fold_left (fun d kv => <[kv.1 := kv.2]> d) pairs ∅.

(** ** The toll table *)

(** [_get_toll_indices]: the rows of the toll file by their [fac_index]. *)
Definition _get_toll_indices (self : Component) (toll_file_path : string)
  : M (gmap Z (gmap string string)) :=
  logger "debug" ("toll_file_path " +:+ toll_file_path) None true;;
  toll_file ← open toll_file_path;
  match Py.file_lines toll_file with
  | [] => lift (Raise StopIteration)
  | first :: rest =>
      let header := map Py.strip (Py.split "," first) in
      lift (rfold (fun tolls line =>
                     let data := dict (zip header (Py.split "," line)) in
                     fac_index ← Py.getitem data "fac_index";
                     key ← Py.int fac_index;
                     Ok (<[key := data]> tolls))
                  rest ∅)
  end.

(** ** Tolls *)

Definition VALUETOLL_INCREMENT : Q := 25 # 100.

(** [int(link["@tollbooth"] * 1000 + link["@tollseg"] * 10 + link["@useclass"])] *)
Definition toll_index_of (link : Link.t) : result Z :=
  tollbooth ← Link.get link "@tollbooth";
  tollseg ← Link.get link "@tollseg";
  useclass ← Link.get link "@useclass";
  Ok (Py.trunc (tollbooth * 1000 + tollseg * 10 + useclass)).

(** [f"toll{time_period.lower()}_{src_veh}"] *)
Definition toll_column (time_period src_veh : string) : string :=
  "toll" +:+ Py.lower time_period +:+ "_" +:+ src_veh.

Definition bridgetoll (dst_veh : string) : string := "@bridgetoll_" +:+ dst_veh.
Definition valuetoll (dst_veh : string) : string := "@valuetoll_" +:+ dst_veh.

(** [self.logger.warn(f"set tolls failed index lookup {index}, link {link.id}", indent=True)] *)
Definition warn_failed_lookup (index : Z) (link : Link.t) : M unit :=
  logger "warn" ("set tolls failed index lookup " +:+ pretty index +:+ ", link " +:+ Link.id link)
         None true.

(** The loop setting [@bridgetoll_<dst>] from a row of the table, for the
    pairs of [zip(src_veh_groups, dst_veh_groups)]. *)
Definition set_bridgetolls (data_row : gmap string string) (time_period : string)
    (groups : list (string * string)) (link : Link.t) : result Link.t :=
  rfold (fun link g =>
           rate ← Py.getitem data_row (toll_column time_period g.1);
           rate ← Py.float rate;
           Link.set link (bridgetoll g.2) (rate * 100))
        groups link.

(** The loop setting [@valuetoll_<dst>] from a row of the table. *)
Definition set_valuetolls (data_row : gmap string string) (time_period : string)
    (groups : list (string * string)) (link : Link.t) : result Link.t :=
  rfold (fun link g =>
           rate ← Py.getitem data_row (toll_column time_period g.1);
           rate ← Py.float rate;
           Link.set link (valuetoll g.2) (rate * Link.length link * 100))
        groups link.

(** The body of the link loop of the static policy ([run_dynamic_toll] false). *)
Definition static_link (start_code : Z) (toll_index : gmap Z (gmap string string))
    (time_period : string) (groups : list (string * string)) (link : Link.t) : M Link.t :=
  tollbooth ← lift (Link.get link "@tollbooth");
  if Py.truthy tollbooth then
    index ← lift (toll_index_of link);
    match toll_index !! index with
    | None => warn_failed_lookup index link;; mret link
    | Some data_row =>
        if Py.lt tollbooth (inject_Z start_code)
        then lift (set_bridgetolls data_row time_period groups link)
        else lift (set_valuetolls data_row time_period groups link)
    end
  else mret link.

(** The body of the link loop that sets up the initial state of the
    dynamic policy. *)
Definition initial_link (start_code : Z) (toll_index : gmap Z (gmap string string))
    (time_period : string) (groups : list (string * string)) (link : Link.t) : M Link.t :=
  tollbooth ← lift (Link.get link "@tollbooth");
  if Py.truthy tollbooth then
    if Py.lt tollbooth (inject_Z start_code) then
      index ← lift (toll_index_of link);
      match toll_index !! index with
      | None => warn_failed_lookup index link;; mret link
      | Some data_row => lift (set_bridgetolls data_row time_period groups link)
      end
    else
      link ← lift (Link.set link "@update_dynamic_toll" 1);
      lift (rfold (fun link g => Link.set link (valuetoll g.2) 0) groups link)
  else mret link.

(** One pass of the vehicle group loop of the dynamic update. *)
Definition increase_valuetoll (max_dynamic_valuetoll : Q) (increase_ratio : Z)
    (link : Link.t) (g : string * string) : result Link.t :=
  current ← Link.get link (valuetoll g.2);
  per_length ← Py.div current (Link.length link);
  let valuetoll_per_mile := (per_length / 100)%Q in
  let increased_valuetoll :=
    (valuetoll_per_mile + VALUETOLL_INCREMENT * inject_Z increase_ratio)%Q in
  if Py.gt increased_valuetoll max_dynamic_valuetoll then
    link ← Link.set link (valuetoll g.2) (max_dynamic_valuetoll * Link.length link * 100);
    Link.set link "@update_dynamic_toll" 0
  else
    Link.set link (valuetoll g.2) (increased_valuetoll * Link.length link * 100).

(** The body of the link loop that updates the value tolls dynamically. *)
Definition update_link (start_code : Z) (max_dynamic_valuetoll : Q)
    (groups : list (string * string)) (link : Link.t) : M Link.t :=
  tollbooth ← lift (Link.get link "@tollbooth");
  if Py.gt tollbooth 0 && Py.ge tollbooth (inject_Z start_code) then
    vc ← lift (Link.get link "@vc");
    if Py.gt vc 1 then
      flag ← lift (Link.get link "@update_dynamic_toll");
      if Py.eq flag 1 then
        modify (fun s => with_dynamic_toll_change s (dynamic_toll_change s + 1));;
        let increase_ratio := Py.round vc in
        lift (rfold (increase_valuetoll max_dynamic_valuetoll increase_ratio) groups link)
      else mret link
    else mret link
  else mret link.

(** [_set_tolls]: set the tolls in the network from the toll file. *)
Definition _set_tolls (self : Component) (network : Network.t) (time_period : string)
  : M Network.t :=
  let src_veh_groups := src_vehicle_group_names (tolls (config self)) in
  let dst_veh_groups := dst_vehicle_group_names (tolls (config self)) in
  let start_code := valuetoll_start_tollbooth_code (tolls (config self)) in
  let groups := zip src_veh_groups dst_veh_groups in
  if run_dynamic_toll (tolls (config self)) then
    toll_index ← _get_toll_indices self
                   (get_abs_path self (bridetoll_file_path (tolls (config self))));
    global_iteration ← read iteration;
    dynamic_toll_iter ← read _dynamic_toll_iter;
    logger "log" ("current global iter: " +:+ pretty global_iteration
                  +:+ ", dynamic toll iter: " +:+ pretty dynamic_toll_iter) None false;;
    if (global_iteration =? 0)%Z && (dynamic_toll_iter =? 0)%Z then
      links ← mmap (initial_link start_code toll_index time_period groups)
                   (Network.links network);
      mret (Network.with_links network links)
    else
      links ← mmap (update_link start_code
                      (max_dynamic_valuetoll (tolls (config self))) groups)
                   (Network.links network);
      mret (Network.with_links network links)
  else
    toll_index ← _get_toll_indices self (get_abs_path self (file_path (tolls (config self))));
    links ← mmap (static_link start_code toll_index time_period groups)
                 (Network.links network);
    mret (Network.with_links network links).

(** ** Input validation *)

(** The columns the toll file must have. *)
Definition required_columns (self : Component) : list string :=
  "fac_index" ::
  flat_map (fun time =>
              map (fun vehicle => "toll" +:+ Py.lower (period_name time) +:+ "_" +:+ vehicle)
                  (src_vehicle_group_names (tolls (config self))))
           (time_periods (controller_config self)).

(** The loop collecting the columns that are not in the header, logging
    each one. *)
Definition find_missing (header : list string) (columns : list string) : M (list string) :=
  mfold (fun missing column =>
           if bool_decide (column ∈ header) then mret missing
           else logger "log" ("Tolls file missing column: " +:+ column) (Some "ERROR") false;;
                mret (missing ++ [column]))
        columns [].

(** [validate_inputs]: raise if the toll file is absent or lacks a column. *)
Definition validate_inputs (self : Component) : M unit :=
  let toll_file_path := get_abs_path self (file_path (tolls (config self))) in
  exists_ ← read (fun s => bool_decide (is_Some (files s !! toll_file_path)));
  if negb exists_ then
    logger "log" ("Tolls file (config.highway.tolls.file_path) does not exist: "
                  +:+ toll_file_path) (Some "ERROR") false;;
    lift (Raise (FileNotFoundError ("Tolls file does not exist: " +:+ toll_file_path)))
  else
    let columns := required_columns self in
    toll_file ← open toll_file_path;
    match Py.file_lines toll_file with
    | [] => lift (Raise StopIteration)
    | first :: _ =>
        let header := map Py.strip (Py.split "," first) in
        missing ← find_missing header columns;
        match missing with
        | [] => mret tt
        | _ => lift (Raise (FileFormatError
                 ("Tolls file missing " +:+ pretty (List.length missing) +:+ " columns: "
                  +:+ Py.join ", " missing)))
        end
    end.

(** ** Attribute creation *)

(** [range(1, n + 1)] *)
Definition range1 (n : Z) : list Z := map Z.of_nat (seq 1 (Z.to_nat n)).

(** The (name, description) pairs [_create_class_attributes] builds for
    the links, in order. *)
Definition class_attributes (self : Component) (time_period : string)
  : list (string * string) :=
  let cfg := controller_config self in
  let m := msa (highway cfg) in
  [("@capacity", "total link capacity");
   ("@ja", "akcelik delay parameter");
   ("@maz_flow", "Assigned MAZ-to-MAZ flow");
   ("@hov_length", "length with HOV lanes");
   ("@toll_length", "length with tolls")]
  ++ (if apply_msa m || run_dynamic_toll (tolls (config self))
      then [("@total_flow", "total traffic flow");
            ("@vc", "volume to capacity ratio")]
      else [])
  ++ (if apply_msa m
      then ("@total_flow_avg", "average total traffic flow")
           :: (if write_iteration_flow m
               then map (fun iteration : Z =>
                           ("@total_flow_" +:+ pretty iteration,
                            "total traffic flow iter" +:+ pretty iteration))
                        (range1 (end_iteration cfg))
               else [])
      else [])
  ++ (if run_dynamic_toll (tolls (config self))
      then [("@update_dynamic_toll", "need to update dynamic toll or not")]
      else [])
  ++ flat_map (fun dst_veh =>
                 map (fun toll_type =>
                        ("@" +:+ toll_type +:+ "toll_" +:+ dst_veh,
                         toll_type +:+ " toll value for " +:+ dst_veh))
                     ["bridge"; "value"])
              (dst_vehicle_group_names (tolls (config self)))
  ++ flat_map (fun assign_class =>
                 let described (what : string) :=
                   Py.prefix 40 (time_period +:+ " " +:+ description assign_class
                                 +:+ " " +:+ what) in
                 [("@cost_" +:+ Py.lower (name assign_class), described "total costs");
                  ("@flow_" +:+ Py.lower (name assign_class), described "link volume");
                  ("@flow_" +:+ Py.lower (name assign_class) +:+ "_avg",
                   described "link avg volume")]
                 ++ (if write_iteration_flow m
                     then map (fun iteration : Z =>
                                 ("@flow_" +:+ Py.lower (name assign_class) +:+ "_"
                                  +:+ pretty iteration,
                                  described ("link volume" +:+ pretty iteration)))
                              (range1 (end_iteration cfg))
                     else []))
              (classes (config self)).

(** [_create_class_attributes]: create (overwrite) every one of them. *)
Definition _create_class_attributes (self : Component) (scenario : Network.t)
    (time_period : string) : Network.t :=
  fold_left (fun scenario nd => Network.create_extra_attribute scenario nd.1 nd.2)
            (class_attributes self time_period) scenario.

(** ** Volume-delay functions *)

(** [d[x]] for a dict with integer keys and a float [x]. *)
Definition getitem_number {V} (d : gmap Z V) (x : Q) : result V :=
  let missing := Raise (KeyError (pretty (Qnum x) +:+ "/" +:+ pretty (Zpos (Qden x)))) in
  if (Qnum x mod Zpos (Qden x) =? 0)%Z then
    match d !! (Qnum x / Zpos (Qden x))%Z with
    | Some v => Ok v
    | None => missing
    end
  else missing.

Definition akcelik_vdfs : list Z := [3; 4; 5; 6; 7; 9; 10; 11; 12; 13; 14; 99]%Z.

Definition py_min (x y : Q) : Q := if Py.lt y x then y else x.
Definition py_max (x y : Q) : Q := if Py.gt y x then y else x.

(** [_set_vdf_attributes]: capacity, VDF and critical speed on links. *)
Definition _set_vdf_attributes (self : Component) (network : Network.t)
    (time_period : string) : result Network.t :=
  let capacity_map : gmap Z Q :=
    fold_left (fun m row => match capacity row with
                            | Some c => <[capclass row := c]> m
                            | None => m
                            end) (capclass_lookup (config self)) ∅ in
  let critical_speed_map : gmap Z Q :=
    fold_left (fun m row => match critical_speed row with
                            | Some c => <[capclass row := c]> m
                            | None => m
                            end) (capclass_lookup (config self)) ∅ in
  let tp_mapping : gmap string Q :=
    dict (map (fun tp => (Py.upper (period_name tp), highway_capacity_factor tp))
              (time_periods (controller_config self))) in
  period_capacity_factor ← Py.getitem tp_mapping time_period;
  links ← rmap (fun link =>
      capclass ← Link.get link "@capclass";
      cap_lanehour ← getitem_number capacity_map capclass;
      lanes ← Link.get link "@lanes";
      link ← Link.set link "@capacity" (cap_lanehour * period_capacity_factor * lanes);
      ft ← Link.get link "@ft";
      let vdf := Py.trunc ft in
      let vdf := if (vdf =? 99)%Z then 7%Z else vdf in
      let link := Link.with_volume_delay_func link vdf in
      lanes ← Link.get link "@lanes";
      let link := Link.with_num_lanes link (py_max (py_min (99 # 10) lanes) 1) in
      if bool_decide (vdf ∈ akcelik_vdfs) then
        free_flow_speed ← Link.get link "@free_flow_speed";
        if Py.gt free_flow_speed 0 then
          let dist := Link.length link in
          capclass ← Link.get link "@capclass";
          critical_speed ← getitem_number critical_speed_map capclass;
          t_c ← Py.div dist critical_speed;
          t_o ← Py.div dist free_flow_speed;
          Link.set link "@ja" (16 * ((t_c - t_o) * (t_c - t_o)))
        else Ok link
      else Ok link)
    (Network.links network);
  Ok (Network.with_links network links).

(** [_calc_total_flow] *)
Definition _calc_total_flow (self : Component) (network : Network.t) : result Network.t :=
  links ← rmap (fun link =>
      link ← Link.set link "@total_flow" 0;
      rfold (fun link assign_class =>
               total ← Link.get link "@total_flow";
               flow ← Link.get link ("@flow_" +:+ Py.lower (name assign_class));
               Link.set link "@total_flow" (total + flow))
            (classes (config self)) link)
    (Network.links network);
  Ok (Network.with_links network links).

(** [_calc_link_skim_lengths] *)
Definition _calc_link_skim_lengths (self : Component) (network : Network.t)
  : result Network.t :=
  let start_code := valuetoll_start_tollbooth_code (tolls (config self)) in
  links ← rmap (fun link =>
      useclass ← Link.get link "@useclass";
      link ← (if Py.le 2 useclass && Py.le useclass 3
              then Link.set link "@hov_length" (Link.length link)
              else Link.set link "@hov_length" 0);
      tollbooth ← Link.get link "@tollbooth";
      if Py.ge tollbooth (inject_Z start_code)
      then Link.set link "@toll_length" (Link.length link)
      else Link.set link "@toll_length" 0)
    (Network.links network);
  Ok (Network.with_links network links).

(** [_calc_link_class_costs] *)
Definition _calc_link_class_costs (self : Component) (network : Network.t)
  : result Network.t :=
  rfold (fun network assign_class =>
      let cost_attr := "@cost_" +:+ Py.lower (name assign_class) in
      let op_cost := operating_cost_per_mile assign_class in
      let toll_factor := default 1%Q (toll_factor assign_class) in
      links ← rmap (fun link =>
          toll_value ← rfold (fun acc toll_attr => v ← Link.get link toll_attr; Ok (acc + v)%Q)
                             (toll assign_class) 0%Q;
          Link.set link cost_attr (Link.length link * op_cost + toll_value * toll_factor))
        (Network.links network);
      Ok (Network.with_links network links))
    (classes (config self)) network.

(** ** Link modes *)

(** [_apply_exclusions]: add the mode unless one of the criteria holds for
    the link; the first criterion that holds ends the search. *)
Fixpoint _apply_exclusions (excluded_links_criteria : list string) (mode_code : string)
    (modes_set : gset string) (link_values : gmap string bool) : result (gset string) :=
  match excluded_links_criteria with
  | [] => Ok (modes_set ∪ {[mode_code]})
  | criteria :: rest =>
      excluded ← Py.getitem link_values criteria;
      if (excluded : bool) then Ok modes_set
      else _apply_exclusions rest mode_code modes_set link_values
  end.

(** The message of the exception for two classes with one mode code and
    different [excluded_links]. *)
Definition duplicated_mode_codes (mode_code : string) (ex_links1 ex_links2 : list string)
  : string :=
  "config error: highway.classes, duplicated mode codes ('" +:+ mode_code
  +:+ "') with different excluded links: " +:+ Py.repr_list ex_links1
  +:+ " and " +:+ Py.repr_list ex_links2.

(** The body of the loop that creates the modes from the class
    specification; the state is the network and [mode_excluded_links]. *)
Definition create_class_mode (state : Network.t * gmap string (list string))
    (assign_class : AssignClass) : result (Network.t * gmap string (list string)) :=
  let '(network, mode_excluded_links) := state in
  match mode_excluded_links !! mode_code assign_class with
  | Some ex_links1 =>
      let ex_links2 := excluded_links assign_class in
      if bool_decide (ex_links2 ≠ ex_links1)
      then Raise (Exception (duplicated_mode_codes (mode_code assign_class) ex_links1 ex_links2))
      else Ok state
  | None =>
      network ← Network.create_mode network "AUX_AUTO" (mode_code assign_class)
                  (name assign_class);
      Ok (network, <[mode_code assign_class := excluded_links assign_class]>
                     mode_excluded_links)
  end.

Definition create_class_modes (classes : list AssignClass) (network : Network.t)
  : result (Network.t * gmap string (list string)) :=
  rfold create_class_mode classes (network, ∅).

(** The per-link predicate table of the last loop. *)
Definition exclude_links_map (dst_veh_groups : list string) (link : Link.t)
  : result (gmap string bool) :=
  useclass ← Link.get link "@useclass";
  let base : gmap string bool :=
    dict [("is_sr", Py.eq useclass 2 || Py.eq useclass 3);
          ("is_sr2", Py.eq useclass 2);
          ("is_sr3", Py.eq useclass 3);
          ("is_auto_only", Py.eq useclass 2 || Py.eq useclass 3 || Py.eq useclass 4)] in
  rfold (fun m dst_veh =>
           v ← Link.get link (valuetoll dst_veh);
           Ok (<["is_toll_" +:+ dst_veh := Py.gt v 0]> m))
        dst_veh_groups base.

(** The body of the last link loop: the modes of one link. *)
Definition link_modes (self : Component) (maz : MazToMaz) (link : Link.t) : result Link.t :=
  let modes := Link.modes link in
  maz_link ←
    (if run_maz_assignment (config self) then
       i ← Link.node_get (Link.i_node link) "@maz_id";
       j ← Link.node_get (Link.j_node link) "@maz_id";
       Ok (Py.gt (i + j) 0)
     else Ok false);
  if (maz_link : bool) then Ok (Link.with_modes link (modes ∪ {[maz_mode_code maz]}))
  else
    drive_link ← Link.get link "@drive_link";
    if negb (Py.truthy drive_link) then Ok link
    else
      link_values ← exclude_links_map (dst_vehicle_group_names (tolls (config self))) link;
      modes ← _apply_exclusions (maz_excluded_links maz) (maz_mode_code maz) modes link_values;
      modes ← rfold (fun modes assign_class =>
                       _apply_exclusions (excluded_links assign_class)
                                         (mode_code assign_class) modes link_values)
                    (classes (config self)) modes;
      Ok (Link.with_modes link modes).

(** The first part of [_set_link_modes]: take the modes of the classes and
    of the MAZ connectors off the links, put the generic mode on the drive
    links, delete the modes that were taken off, and create the MAZ access
    mode. *)
Definition reset_modes (self : Component) (network : Network.t)
  : result (MazToMaz * Network.t) :=
  let auto_mode := Network.mode network (generic_highway_mode_code (config self)) in
  let class_modes := omap (fun c => Network.mode network (mode_code c)) (classes (config self)) in
  maz ← match maz_to_maz (config self) with
        | Some m => Ok m
        | None => Raise (AttributeError "'NoneType' object has no attribute 'mode_code'")
        end;
  let used_modes : gset string :=
    list_to_set class_modes ∪
    (match Network.mode network (maz_mode_code maz) with
     | Some m => {[m]}
     | None => ∅
     end) in
  links ← rmap (fun link =>
      let link := Link.with_modes link (Link.modes link ∖ used_modes) in
      drive_link ← Link.get link "@drive_link";
      if Py.truthy drive_link then
        match auto_mode with
        | Some m => Ok (Link.with_modes link (Link.modes link ∪ {[m]}))
        | None => Raise (EmmeError "None is not a mode")
        end
      else Ok link)
    (Network.links network);
  let network := Network.with_links network links in
  network ← rfold Network.delete_mode (elements used_modes) network;
  network ← Network.create_mode network "AUX_AUTO" (maz_mode_code maz) "MAZ access";
  Ok (maz, network).

(** [_set_link_modes]: reset the modes, create those of the classes, and
    give every link the modes its classes allow. *)
Definition _set_link_modes (self : Component) (network : Network.t) : result Network.t :=
  reset ← reset_modes self network;
  created ← create_class_modes (classes (config self)) reset.2;
  let network := created.1 in
  links ← rmap (link_modes self reset.1) (Network.links network);
  Ok (Network.with_links network links).

(** ** The run *)

(** [self.get_emme_scenario(path, time)]: the scenario of a time period. *)
Definition get_emme_scenario (time : string) : M Network.t :=
  fun s => match emmebank s !! time with
           | Some scenario => (Ok scenario, s)
           | None => (Raise (EmmeError ("no scenario for time period " +:+ time)), s)
           end.

Definition put_scenario (time : string) (scenario : Network.t) : M unit :=
  modify (fun s => with_emmebank s (<[time := scenario]> (emmebank s))).

(** The body of the loop of [run] over the time periods. *)
Definition prepare (self : Component) (time : string) : M unit :=
  scenario ← get_emme_scenario time;
  iteration ← read iteration;
  dynamic_toll_iter ← read _dynamic_toll_iter;
  (if (iteration =? 0)%Z && (dynamic_toll_iter =? 0)%Z then
     called (CreateClassAttributes time);;
     put_scenario time (_create_class_attributes self scenario time)
   else mret tt);;
  network ← get_emme_scenario time;
  called (SetTolls time);;
  network ← _set_tolls self network time;
  called (SetVdfAttributes time);;
  network ← lift (_set_vdf_attributes self network time);
  called (SetLinkModes time);;
  network ← lift (_set_link_modes self network);
  called (CalcLinkSkimLengths time);;
  network ← lift (_calc_link_skim_lengths self network);
  called (CalcLinkClassCosts time);;
  network ← lift (_calc_link_class_costs self network);
  called (CalcTotalFlow time);;
  network ← lift (_calc_total_flow self network);
  called (PublishNetwork time);;
  put_scenario time network.

(** The update of the run-level state of the dynamic tolls, after the loop. *)
Definition accumulate_dynamic_toll_iteration : M unit :=
  dynamic_toll_iter ← read _dynamic_toll_iter;
  change ← read dynamic_toll_change;
  (if (0 <? dynamic_toll_iter)%Z && (change =? 0)%Z
   then modify (fun s => with__stop_dynamic_toll s true)
   else mret tt);;
  stop ← read _stop_dynamic_toll;
  if negb stop
  then modify (fun s => with__dynamic_toll_iter s (_dynamic_toll_iter s + 1))
  else mret tt.

(** [run]: the network preparation step. *)
Definition run (self : Component) : M unit :=
  modify (fun s => with_dynamic_toll_change s 0);;
  mfor (time_period_names self) (prepare self);;
  if run_dynamic_toll (tolls (config self))
  then accumulate_dynamic_toll_iteration
  else mret tt.

(** ** A small network, on which the code is run *)

Definition eol : string := String Py.newline "".

(** One vehicle group, [da]; value tolls start at toll booth 11. *)
Definition example_tolls (dynamic : bool) : TollsConfig := {|
  file_path := "tolls.csv";
  bridetoll_file_path := "bridgetolls.csv";
  src_vehicle_group_names := ["da"];
  dst_vehicle_group_names := ["da"];
  valuetoll_start_tollbooth_code := 11;
  run_dynamic_toll := dynamic;
  max_dynamic_valuetoll := 1;
|}.

Definition example_class : AssignClass := {|
  name := "DA";
  description := "drive alone";
  mode_code := "d";
  excluded_links := ["is_toll_da"];
  operating_cost_per_mile := 17;
  toll_factor := None;
  toll := ["@bridgetoll_da"; "@valuetoll_da"];
|}.

Definition example_highway (tolls_config : TollsConfig) (assign_classes : list AssignClass)
  : HighwayConfig := {|
  tolls := tolls_config;
  classes := assign_classes;
  capclass_lookup := [{| capclass := 1; capacity := Some 2000%Q;
                         critical_speed := Some 30%Q |}];
  generic_highway_mode_code := "c";
  maz_to_maz := Some {| maz_mode_code := "x"; maz_excluded_links := [] |};
  run_maz_assignment := false;
  msa := {| apply_msa := false; write_iteration_flow := false |};
|}.

Definition example_component (tolls_config : TollsConfig)
    (assign_classes : list AssignClass) (periods : list string) : Component := {|
  controller_config := {|
    highway := example_highway tolls_config assign_classes;
    time_periods := map (fun p => {| period_name := p; highway_capacity_factor := 1 |}) periods;
    end_iteration := 3;
  |};
  time_period_names := map Py.upper periods;
  get_abs_path := fun p => "/model/" +:+ p;
|}.

Definition example_self (tolls_config : TollsConfig) (periods : list string) : Component :=
  example_component tolls_config [example_class] periods.

(** A link of length 2 with the input attributes of the network; [more]
    holds or replaces attributes. *)
Definition example_link (tollbooth : Q) (more : list (string * Q)) : Link.t :=
  Link.mk "1-2" 2
    (list_to_map (more ++
       [("@tollbooth", tollbooth); ("@tollseg", 1%Q); ("@useclass", 0%Q);
        ("@capclass", 1%Q); ("@lanes", 2%Q); ("@ft", 1%Q);
        ("@free_flow_speed", 60%Q); ("@drive_link", 1%Q)]))
    {["c"]} 0 0 ∅ ∅.

Definition example_network (links : list Link.t) : Network.t :=
  Network.mk links {["c" := {| mode_type := "AUTO"; mode_description := "car" |}]} ∅.

Definition example_files : gmap string string :=
  {[ "/model/tolls.csv" :=
       "fac_index,tollam_da" +:+ eol +:+ "1010,2.50" +:+ eol +:+ "12010,0.10" +:+ eol;
     "/model/bridgetolls.csv" :=
       "fac_index,tollam_da" +:+ eol +:+ "1010,2.50" +:+ eol ]}.

Definition example_state (iteration dynamic_toll_iter : Z)
    (bank : gmap string Network.t) : State :=
  mkState iteration dynamic_toll_iter false 0 bank example_files [] [].

(** The toll fields of the schema, at zero. *)
Definition zero_tolls : list (string * Q) :=
  [("@bridgetoll_da", 0%Q); ("@valuetoll_da", 0%Q)].


(** What a computation returned, or [d] if it raised. *)
Definition returned {A} (d : A) (r : result A * State) : A :=
  match r.1 with
  | Ok a => a
  | Raise _ => d
  end.



(** ** Passes of the dynamic update over one link *)



(** A bridge link of the table (index 1010), and one the table does not
    list (toll segment 2, index 1020). *)
Definition bridge_link : Link.t := example_link 1 zero_tolls.
Definition unlisted_link : Link.t := example_link 1 (("@tollseg", 2%Q) :: zero_tolls).
(** A value-toll link of the table (index 12010). *)
Definition tollway_link : Link.t := example_link 12 zero_tolls.

(** Scenarios for one and for two time periods, each with a value-toll link. *)
Definition one_period_bank : gmap string Network.t :=
  {[ "AM" := example_network [tollway_link] ]}.
Definition two_period_bank : gmap string Network.t :=
  {[ "AM" := example_network [tollway_link]; "PM" := example_network [tollway_link] ]}.

(** Two classes that share the mode code [h]: with different exclusion
    lists, and with the same one. *)
Definition hov (class_name : string) (criteria : list string) : AssignClass := {|
  name := class_name;
  description := "shared ride";
  mode_code := "h";
  excluded_links := criteria;
  operating_cost_per_mile := 17;
  toll_factor := None;
  toll := ["@bridgetoll_da"];
|}.

Definition conflicting_classes : list AssignClass :=
  [example_class; hov "HOV2" ["is_sr3"]; hov "HOV3" ["is_sr2"]].

Definition agreeing_classes : list AssignClass :=
  [example_class; hov "HOV2" ["is_toll_da"]; hov "HOV3" ["is_toll_da"]].

(** ** Vocabulary of the properties *)

(** A relation between states that every step of a computation respects
    holds between its first and its last state. *)
Definition keeps {A} (R : relation State) (m : M A) : Prop :=
  forall s r s', m s = (r, s') -> R s s'.

(** What the logger and the change counter do not touch. *)
Definition same_run (s s' : State) : Prop :=
  iteration s' = iteration s /\ _dynamic_toll_iter s' = _dynamic_toll_iter s /\
  _stop_dynamic_toll s' = _stop_dynamic_toll s /\ emmebank s' = emmebank s /\
  files s' = files s /\ calls s' = calls s.

(** The log only grows. *)
Definition log_grows (s s' : State) : Prop :=
  exists more, logged s' = logged s ++ more.





(** A sequence of attribute assignments, applied in order. *)
Definition writes (ws : list (string * Q)) (m : gmap string Q) : gmap string Q :=
  fold_left (fun m kv => <[kv.1 := kv.2]> m) ws m.

(** The shape of the loops that store tolls: for each group, compute a
    value and assign it to the attribute of the group. *)
Definition write_loop {B} (key : B -> string) (val : B -> result Q) (groups : list B)
    (link : Link.t) : result Link.t :=
  rfold (fun link g => v ← val g; Link.set link (key g) v) groups link.

(** The toll in cents that a row of the table gives a vehicle group:
    the bridge toll, and the value toll on a link of length [len]. *)
Definition bridge_cents (data_row : gmap string string) (time_period : string)
    (g : string * string) : result Q :=
  rate ← Py.getitem data_row (toll_column time_period g.1);
  rate ← Py.float rate;
  Ok (rate * 100)%Q.

Definition value_cents (data_row : gmap string string) (time_period : string) (len : Q)
    (g : string * string) : result Q :=
  rate ← Py.getitem data_row (toll_column time_period g.1);
  rate ← Py.float rate;
  Ok (rate * len * 100)%Q.





(** The record of a failed lookup in the log. *)
Definition failed_lookup_record (index : Z) (link : Link.t) : LogRecord :=
  {| log_method := "warn";
     log_text := "set tolls failed index lookup " +:+ pretty index +:+ ", link "
                 +:+ Link.id link;
     log_level := None;
     log_indent := true |}.


(** The time periods whose attributes were created, among recorded calls. *)
Definition created (cs : list Call) : list string :=
  omap (fun c => match c with
                 | CreateClassAttributes time => Some time
                 | _ => None
                 end) cs.

(** The calls [run] makes for one time period, after the creation of the
    attributes. *)
Definition period_calls (time : string) : list Call :=
  [SetTolls time; SetVdfAttributes time; SetLinkModes time; CalcLinkSkimLengths time;
   CalcLinkClassCosts time; CalcTotalFlow time; PublishNetwork time].

(** The controller's side of the state: what only [run] itself may change. *)
Definition same_controller (s s' : State) : Prop :=
  iteration s' = iteration s /\ _dynamic_toll_iter s' = _dynamic_toll_iter s /\
  _stop_dynamic_toll s' = _stop_dynamic_toll s /\ files s' = files s.

(** A text that occurs inside another. *)
Definition occurs_in (part whole : string) : Prop :=
  exists before after, whole = before +:+ part +:+ after.

(** The columns of a list that a header lacks. *)
Definition missing_from (header columns : list string) : list string :=
  filter (fun column => column ∉ header) columns.

(** The first class of a list that has a given mode code. *)
Definition first_with_code (code : string) (classes : list AssignClass) : option AssignClass :=
  snd <$> list_find (fun c => mode_code c = code) classes.

(** ** More of the small network *)

(** A link that carries the flows the assignment wrote for the class [DA]
    and for the two shared-ride classes. *)
Definition loaded_link : Link.t :=
  example_link 1 [("@total_flow", 999%Q); ("@flow_da", 120%Q);
                  ("@flow_hov2", 30%Q); ("@flow_hov3", 5 # 2)].

(** ** The Python primitives on examples *)

Example strip_ex : Py.strip (" tollam_da " +:+ String Py.newline "") = "tollam_da".
Proof. reflexivity. Qed.
Example split_ex : Py.split "," "a,b,,c" = ["a"; "b"; ""; "c"].
Proof. reflexivity. Qed.
Example float_ex : Py.float ("2.50" +:+ String Py.newline "") = Ok (250 # 100).
Proof. reflexivity. Qed.
Example float_exp_ex : Py.float "-1.5e-1" = Ok (-15 # 100).
Proof. reflexivity. Qed.
Example float_bad_ex : Py.float "abc" = Raise (ValueError "could not convert string to float: abc").
Proof. reflexivity. Qed.
Example int_ex : Py.int " 1010 " = Ok 1010%Z.
Proof. reflexivity. Qed.
Example round_ex : map Py.round [14 # 10; 3 # 2; 5 # 2; 7 # 2; -(1 # 2)] = [1; 2; 2; 4; 0]%Z.
Proof. reflexivity. Qed.
Example trunc_ex : map Py.trunc [1010 # 1; 19 # 10; -(19 # 10)] = [1010; 1; -1]%Z.
Proof. reflexivity. Qed.
Example lines_ex :
  Py.file_lines ("h" +:+ String Py.newline "r1" +:+ String Py.newline "r2")
  = ["h" +:+ String Py.newline ""; "r1" +:+ String Py.newline ""; "r2"].
Proof. reflexivity. Qed.
Example repr_list_ex : Py.repr_list ["is_sr2"; "is_toll_da"] = "['is_sr2', 'is_toll_da']".
Proof. reflexivity. Qed.

(** * Properties *)

(** ** Reasoning about [result] and [M] *)

Lemma rbind_Ok {A B} (m : result A) (k : A -> result B) (b : B) :
  m ≫= k = Ok b -> exists a, m = Ok a /\ k a = Ok b.
Proof. destruct m as [a|e]; simpl; [eauto | discriminate]. Qed.

Lemma mbind_Ok {A B} (m : M A) (k : A -> M B) (s s' : State) (b : B) :
  (m ≫= k) s = (Ok b, s') -> exists a s1, m s = (Ok a, s1) /\ k a s1 = (Ok b, s').
Proof.
  unfold mbind, M_bind. destruct (m s) as [[a|e] s1]; [eauto | discriminate].
Qed.

Lemma lift_Ok {A} (r : result A) (s s' : State) (a : A) :
  lift r s = (Ok a, s') -> r = Ok a /\ s' = s.
Proof. unfold lift. intros [= -> ->]. done. Qed.

Lemma read_Ok {A} (f : State -> A) (s s' : State) (a : A) :
  read f s = (Ok a, s') -> a = f s /\ s' = s.
Proof. unfold read. intros [= <- <-]. done. Qed.

Lemma modify_Ok (f : State -> State) (s s' : State) (u : unit) :
  modify f s = (Ok u, s') -> s' = f s.
Proof. unfold modify. intros [= <-]. done. Qed.

Lemma mret_Ok {A} (a b : A) (s s' : State) :
  (mret a : M A) s = (Ok b, s') -> b = a /\ s' = s.
Proof. unfold mret, M_ret. intros [= <- <-]. done. Qed.

(** Splits a successful computation into its successful steps. *)
Ltac inv_ok :=
  repeat match goal with
  | H : (_ ≫= _) _ = (Ok _, _) |- _ =>
      let a := fresh "a" in let s := fresh "s" in let H1 := fresh H in
      apply mbind_Ok in H as (a & s & H1 & H)
  | H : (_ ≫= _) = Ok _ |- _ =>
      let a := fresh "a" in let H1 := fresh H in
      apply rbind_Ok in H as (a & H1 & H)
  | H : lift _ _ = (Ok _, _) |- _ => apply lift_Ok in H as [H ->]
  | H : read _ _ = (Ok _, _) |- _ => apply read_Ok in H as [-> ->]
  | H : modify _ _ = (Ok _, _) |- _ => apply modify_Ok in H as ->
  | H : mret _ _ = (Ok _, _) |- _ => apply mret_Ok in H as [-> ->]
  | H : Ok _ = Ok _ |- _ => injection H as H; try subst
  | H : Raise _ = Ok _ |- _ => discriminate H
  | H : (Raise _, _) = (Ok _, _) |- _ => discriminate H
  end.

(** *** Loops *)

Lemma rfold_invariant {A B} (P : A -> Prop) (body : A -> B -> result A) (xs : list B) :
  (forall a x a', x ∈ xs -> P a -> body a x = Ok a' -> P a') ->
  forall a a', P a -> rfold body xs a = Ok a' -> P a'.
Proof.
  induction xs as [|x xs IH]; simpl; intros Hstep a a' Ha Hrun.
  - by inv_ok.
  - inv_ok. eapply IH; [| |done].
    + intros. eapply Hstep; [by right|done..].
    + eapply Hstep; [by left|done..].
Qed.

Lemma rmap_length {A B} (f : A -> result B) (xs : list A) (ys : list B) :
  rmap f xs = Ok ys -> List.length ys = List.length xs.
Proof.
  revert ys. induction xs as [|x xs IH]; simpl; intros ys H; inv_ok; [done|].
  simpl. f_equal. by apply IH.
Qed.

Lemma rmap_lookup {A B} (f : A -> result B) (xs : list A) (ys : list B) (i : nat) (x : A) :
  rmap f xs = Ok ys -> xs !! i = Some x -> exists y, f x = Ok y /\ ys !! i = Some y.
Proof.
  revert ys i. induction xs as [|x0 xs IH]; simpl; intros ys i H Hi; [done|].
  inv_ok. destruct i as [|i]; simpl in *.
  - injection Hi as ->. eauto.
  - eauto.
Qed.

Lemma rmap_fixed {A} (f : A -> result A) (xs : list A) :
  (forall x, x ∈ xs -> f x = Ok x) -> rmap f xs = Ok xs.
Proof.
  induction xs as [|x xs IH]; simpl; intros H; [done|].
  rewrite H by left. simpl. rewrite IH; [done|]. intros. apply H. by right.
Qed.

Section keeps.
Context (R : relation State) `{!PreOrder R}.

Lemma keeps_ret {A} (a : A) : keeps R (mret a : M A).
Proof. intros s r s' [= <- <-]. done. Qed.

Lemma keeps_lift {A} (r : result A) : keeps R (lift r).
Proof. intros s r' s' [= <- <-]. done. Qed.

Lemma keeps_read {A} (f : State -> A) : keeps R (read f).
Proof. intros s r' s' [= <- <-]. done. Qed.

Lemma keeps_bind {A B} (m : M A) (k : A -> M B) :
  keeps R m -> (forall a, keeps R (k a)) -> keeps R (m ≫= k).
Proof.
  intros Hm Hk s r s'. unfold mbind, M_bind.
  destruct (m s) as [[a|e] s1] eqn:E; intros H.
  - etrans; [by eapply Hm | by eapply Hk].
  - injection H as <- <-. by eapply Hm.
Qed.

Lemma keeps_mmap {A B} (f : A -> M B) (xs : list A) :
  (forall x, keeps R (f x)) -> keeps R (mmap f xs).
Proof.
  intros Hf. induction xs as [|x xs IH]; simpl.
  - apply keeps_ret.
  - apply keeps_bind; [done|]. intros y. apply keeps_bind; [done|].
    intros ys. apply keeps_ret.
Qed.

Lemma keeps_mfold {A B} (f : A -> B -> M A) (xs : list B) (a : A) :
  (forall a x, keeps R (f a x)) -> keeps R (mfold f xs a).
Proof.
  intros Hf. revert a. induction xs as [|x xs IH]; simpl; intros a.
  - apply keeps_ret.
  - apply keeps_bind; [done|]. intros y. apply IH.
Qed.

Lemma keeps_mfor {A} (xs : list A) (f : A -> M unit) :
  (forall x, keeps R (f x)) -> keeps R (mfor xs f).
Proof.
  intros Hf. induction xs as [|x xs IH]; simpl.
  - apply keeps_ret.
  - apply keeps_bind; [done|]. intros _. apply IH.
Qed.

Lemma keeps_if {A} (b : bool) (m1 m2 : M A) :
  keeps R m1 -> keeps R m2 -> keeps R (if b then m1 else m2).
Proof. by destruct b. Qed.

(** In a successful loop over the elements of a list, every element was
    handled successfully, between two states the loop went through. *)
Lemma mmap_lookup {A B} (f : A -> M B) (xs : list A) :
  (forall x, keeps R (f x)) ->
  forall s ys s' i x,
    mmap f xs s = (Ok ys, s') -> xs !! i = Some x ->
    exists y s1 s2, f x s1 = (Ok y, s2) /\ ys !! i = Some y /\ R s s1 /\ R s2 s'.
Proof.
  intros Hf. induction xs as [|x0 xs IH]; simpl; intros s ys s' i x H Hi; [done|].
  apply mbind_Ok in H as (y0 & s0 & Hy0 & H).
  apply mbind_Ok in H as (ys0 & s3 & Hys0 & H).
  apply mret_Ok in H as [-> ->].
  destruct i as [|i]; simpl in *.
  - injection Hi as ->. exists y0, s, s0. split_and!; [done..|].
    by eapply (keeps_mmap f xs Hf).
  - destruct (IH _ _ _ _ _ Hys0 Hi) as (y & s1 & s2 & ? & ? & ? & ?).
    exists y, s1, s2. split_and!; [done..| |done].
    etrans; [|done]. by eapply Hf.
Qed.
End keeps.

(** Walks through a computation, leaving the steps that change the state. *)
Ltac keeps_step :=
  lazymatch goal with
  | |- PreOrder _ => tc_solve
  | |- Reflexive _ => tc_solve
  | |- keeps _ (mret _) => apply keeps_ret
  | |- keeps _ (lift _) => apply keeps_lift
  | |- keeps _ (read _) => apply keeps_read
  | |- keeps _ (_ ≫= _) => apply keeps_bind
  | |- keeps _ (if _ then _ else _) => apply keeps_if
  | |- keeps _ (match ?x with _ => _ end) => destruct x
  | |- keeps _ (mmap _ _) => apply keeps_mmap
  | |- keeps _ (mfor _ _) => apply keeps_mfor
  | |- keeps _ (mfold _ _ _) => apply keeps_mfold
  | |- forall _, _ => intro
  end.
Ltac keeps_auto := repeat keeps_step.

Lemma mmap_length {A B} (f : A -> M B) (xs : list A) (s s' : State) (ys : list B) :
  mmap f xs s = (Ok ys, s') -> List.length ys = List.length xs.
Proof.
  revert s ys. induction xs as [|x xs IH]; simpl; intros s ys H; inv_ok; [done|].
  simpl. f_equal. by eapply IH.
Qed.

Global Instance same_run_preorder : PreOrder same_run.
Proof.
  split.
  - by intros s.
  - intros s1 s2 s3 (?&?&?&?&?&?) (?&?&?&?&?&?). unfold same_run.
    split_and!; congruence.
Qed.

Global Instance log_grows_preorder : PreOrder log_grows.
Proof.
  split.
  - intros s. exists []. by rewrite app_nil_r.
  - intros s1 s2 s3 [m1 H1] [m2 H2]. exists (m1 ++ m2).
    by rewrite H2, H1, app_assoc.
Qed.

Lemma keeps_logger_same_run method text level indent :
  keeps same_run (logger method text level indent).
Proof. intros s r s' [= <- <-]. done. Qed.

Lemma keeps_logger_log_grows method text level indent :
  keeps log_grows (logger method text level indent).
Proof. intros s r s' [= <- <-]. eexists. done. Qed.

Lemma keeps_open (R : relation State) `{!Reflexive R} path : keeps R (open path).
Proof.
  intros s r s'. unfold open. destruct (files s !! path); intros [= <- <-]; done.
Qed.

(** ** Link attributes *)

Lemma get_Ok (l : Link.t) (a : string) (v : Q) :
  Link.get l a = Ok v <-> Link.attrs l !! a = Some v.
Proof.
  unfold Link.get, Link.not_defined. destruct (Link.attrs l !! a); split; congruence.
Qed.

Lemma set_Ok (l l' : Link.t) (a : string) (v : Q) :
  Link.set l a v = Ok l' ->
  l' = Link.with_attrs l (<[a := v]> (Link.attrs l)) /\ is_Some (Link.attrs l !! a).
Proof.
  unfold Link.set, Link.not_defined. destruct (Link.attrs l !! a); [|done].
  intros [= <-]. eauto.
Qed.

Lemma set_defined (l : Link.t) (a : string) (v w : Q) :
  Link.attrs l !! a = Some w ->
  Link.set l a v = Ok (Link.with_attrs l (<[a := v]> (Link.attrs l))).
Proof. unfold Link.set. by intros ->. Qed.

Lemma valuetoll_inj (g1 g2 : string) : valuetoll g1 = valuetoll g2 -> g1 = g2.
Proof. intros H. cbv in H. congruence. Qed.

Lemma bridgetoll_inj (g1 g2 : string) : bridgetoll g1 = bridgetoll g2 -> g1 = g2.
Proof. intros H. cbv in H. congruence. Qed.



(** ** Comparisons *)

Lemma lt_true (x y : Q) : Py.lt x y = true <-> (x < y)%Q.
Proof.
  unfold Py.lt. rewrite Qlt_alt. destruct (x ?= y)%Q; split; congruence.
Qed.

Lemma lt_false (x y : Q) : Py.lt x y = false <-> (y <= x)%Q.
Proof.
  rewrite <- not_true_iff_false, lt_true. split; [apply Qnot_lt_le | apply Qle_not_lt].
Qed.

Lemma gt_true (x y : Q) : Py.gt x y = true <-> (y < x)%Q.
Proof. apply lt_true. Qed.

Lemma gt_false (x y : Q) : Py.gt x y = false <-> (x <= y)%Q.
Proof. apply lt_false. Qed.

Lemma le_true (x y : Q) : Py.le x y = true <-> (x <= y)%Q.
Proof.
  unfold Py.le. rewrite Qle_alt. destruct (x ?= y)%Q; split; congruence.
Qed.



(** Settles a closed goal by running the definitions. *)
Ltac evaluate :=
  first [ by vm_compute | by apply (bool_decide_unpack _); vm_compute ].

(** ** The dynamic update of one link *)




Lemma keeps_update_link (R : relation State) `{!PreOrder R} start_code mx groups link :
  (forall s, R s (with_dynamic_toll_change s (dynamic_toll_change s + 1))) ->
  keeps R (update_link start_code mx groups link).
Proof.
  intros HR. unfold update_link. keeps_auto.
  intros s r s' [= <- <-]. apply HR.
Qed.

(** ** [_set_tolls], by policy and phase *)

Lemma keeps_get_toll_indices self path : keeps same_run (_get_toll_indices self path).
Proof.
  unfold _get_toll_indices. keeps_auto.
  - apply keeps_logger_same_run.
  - apply keeps_open. tc_solve.
Qed.





(** *** A link whose flag is not 1 *)




(** *** Tolls per mile *)









(** ** Loops that store tolls *)

Lemma writes_snoc (ws : list (string * Q)) (kv : string * Q) (m : gmap string Q) :
  writes (ws ++ [kv]) m = <[kv.1 := kv.2]> (writes ws m).
Proof. unfold writes. by rewrite fold_left_app. Qed.

Lemma writes_lookup_other (ws : list (string * Q)) (m : gmap string Q) (a : string) :
  a ∉ ws.*1 -> writes ws m !! a = m !! a.
Proof.
  revert m. induction ws as [|[k v] ws IH]; simpl; intros m Ha; [done|].
  apply not_elem_of_cons in Ha as [Hk Ha]. rewrite IH by done.
  by rewrite lookup_insert_ne.
Qed.

Lemma writes_lookup (ws : list (string * Q)) (m : gmap string Q) (k : string) (v : Q) :
  NoDup ws.*1 -> (k, v) ∈ ws -> writes ws m !! k = Some v.
Proof.
  revert m. induction ws as [|[k0 v0] ws IH]; simpl; intros m Hnd Hin; [by inversion Hin|].
  apply NoDup_cons in Hnd as [Hk0 Hnd].
  apply elem_of_cons in Hin as [[= -> ->]|Hin].
  - rewrite writes_lookup_other by done. apply lookup_insert_eq.
  - by apply IH.
Qed.

Lemma writes_defined (ws : list (string * Q)) (m : gmap string Q) (a : string) :
  is_Some (m !! a) -> is_Some (writes ws m !! a).
Proof.
  revert m. induction ws as [|[k v] ws IH]; simpl; intros m Ha; [done|].
  apply IH. rewrite lookup_insert. case_decide; [done|]. done.
Qed.

(** An assignment made before a sequence that ends with an assignment to
    the same attribute leaves no trace. *)
Lemma writes_overwritten (ws : list (string * Q)) (m : gmap string Q) (k : string) (v v' : Q) :
  <[k := v]> (writes ws (<[k := v']> m)) = <[k := v]> (writes ws m).
Proof.
  revert m. induction ws as [|[k0 v0] ws IH]; simpl; intros m.
  - apply insert_insert_eq.
  - destruct (decide (k0 = k)) as [->|Hne].
    + by rewrite insert_insert_eq.
    + rewrite (insert_insert_ne m) by done. apply IH.
Qed.

(** Assigning the same values once more changes nothing. *)
Lemma writes_idempotent (ws : list (string * Q)) (m : gmap string Q) :
  writes ws (writes ws m) = writes ws m.
Proof.
  induction ws as [|kv ws IH] using rev_ind; [done|].
  rewrite !writes_snoc, writes_overwritten. by rewrite IH.
Qed.

Section write_loop.
Context {B : Type} (key : B -> string) (val : B -> result Q).

(** The assignments a successful loop makes. *)
Lemma write_loop_Ok (groups : list B) (link link' : Link.t) :
  write_loop key val groups link = Ok link' ->
  exists ws,
    rmap (fun g => v ← val g; Ok (key g, v)) groups = Ok ws /\
    ws.*1 = key <$> groups /\
    Forall (fun a => is_Some (Link.attrs link !! a)) ws.*1 /\
    link' = Link.with_attrs link (writes ws (Link.attrs link)).
Proof.
  unfold write_loop. revert link.
  induction groups as [|g groups IH]; simpl; intros link H.
  - injection H as <-. exists []. split_and!; [done|done|done|by destruct link].
  - apply rbind_Ok in H as (l1 & H1 & H).
    apply rbind_Ok in H1 as (v & Hv & H1). apply set_Ok in H1 as [-> Hdef].
    destruct (IH _ H) as (ws & Hws & Hkeys & Hall & ->).
    exists ((key g, v) :: ws). rewrite Hv, Hws.
    split_and!; [done|by rewrite !fmap_cons, Hkeys| |done].
    rewrite fmap_cons. constructor; [done|].
    eapply Forall_impl; [exact Hall|]. intros a Ha. simpl in Ha.
    rewrite lookup_insert in Ha. case_decide; [by subst|done].
Qed.

(** The loop succeeds when the values can be computed and the attributes
    exist. *)
Lemma write_loop_run (groups : list B) (ws : list (string * Q)) (link : Link.t) :
  rmap (fun g => v ← val g; Ok (key g, v)) groups = Ok ws ->
  Forall (fun a => is_Some (Link.attrs link !! a)) ws.*1 ->
  write_loop key val groups link = Ok (Link.with_attrs link (writes ws (Link.attrs link))).
Proof.
  unfold write_loop. revert ws link.
  induction groups as [|g groups IH]; simpl; intros ws link Hws Hall.
  - injection Hws as <-. by destruct link.
  - apply rbind_Ok in Hws as ([k v] & Hv & Hws).
    apply rbind_Ok in Hv as (v0 & Hv & [= <- <-]).
    apply rbind_Ok in Hws as (ws0 & Hws & [= <-]).
    simpl in Hall. apply Forall_cons in Hall as [[w Hk] Hall].
    rewrite Hv. simpl. rewrite (set_defined _ _ _ _ Hk). simpl.
    rewrite (IH ws0); [done|done|]. simpl.
    eapply Forall_impl; [exact Hall|]. intros a Ha. simpl.
    rewrite lookup_insert. case_decide; [done|done].
Qed.

Lemma write_loop_idempotent (groups : list B) (link link' : Link.t) :
  write_loop key val groups link = Ok link' ->
  write_loop key val groups link' = Ok link'.
Proof.
  intros H. apply write_loop_Ok in H as (ws & Hws & _ & Hall & ->).
  rewrite (write_loop_run _ ws); [|done|].
  - simpl. by rewrite writes_idempotent.
  - simpl. eapply Forall_impl; [exact Hall|]. intros a. apply writes_defined.
Qed.

Lemma write_loop_other (groups : list B) (link link' : Link.t) (a : string) :
  write_loop key val groups link = Ok link' ->
  a ∉ key <$> groups ->
  Link.attrs link' !! a = Link.attrs link !! a.
Proof.
  intros H Ha. apply write_loop_Ok in H as (ws & _ & Hkeys & _ & ->). simpl.
  apply writes_lookup_other. by rewrite Hkeys.
Qed.

Lemma write_loop_lookup (groups : list B) (link link' : Link.t) (g : B) :
  write_loop key val groups link = Ok link' ->
  NoDup (key <$> groups) -> g ∈ groups ->
  exists v, val g = Ok v /\ Link.attrs link' !! key g = Some v.
Proof.
  intros H Hnd Hg. apply write_loop_Ok in H as (ws & Hws & Hkeys & _ & ->). simpl.
  apply list_elem_of_lookup in Hg as [i Hi].
  destruct (rmap_lookup _ _ _ _ _ Hws Hi) as ([k v] & Hv & Hwi).
  apply rbind_Ok in Hv as (v0 & Hv & [= <- <-]).
  exists v0. split; [done|]. apply writes_lookup.
  - rewrite Hkeys. exact Hnd.
  - by eapply list_elem_of_lookup_2.
Qed.

Lemma write_loop_frame (groups : list B) (link link' : Link.t) :
  write_loop key val groups link = Ok link' ->
  link' = Link.with_attrs link (Link.attrs link').
Proof. intros H. apply write_loop_Ok in H as (ws & _ & _ & _ & ->). done. Qed.
End write_loop.

(** The two loops of the toll table are of this shape. *)
Lemma set_bridgetolls_write_loop data_row time_period groups link :
  set_bridgetolls data_row time_period groups link
  = write_loop (fun g => bridgetoll g.2) (bridge_cents data_row time_period) groups link.
Proof.
  unfold set_bridgetolls, write_loop, bridge_cents. revert link.
  induction groups as [|g groups IH]; simpl; intros link; [done|].
  destruct (Py.getitem data_row _) as [rate|]; simpl; [|done].
  destruct (Py.float rate) as [x|]; simpl; [|done].
  destruct (Link.set link _ _); simpl; [apply IH|done].
Qed.

Lemma set_valuetolls_write_loop data_row time_period groups link :
  set_valuetolls data_row time_period groups link
  = write_loop (fun g => valuetoll g.2)
               (value_cents data_row time_period (Link.length link)) groups link.
Proof.
  unfold set_valuetolls, write_loop, value_cents.
  generalize (eq_refl (Link.length link)).
  generalize (Link.length link) at 1 3 as len. intros len. revert link.
  induction groups as [|g groups IH]; simpl; intros link Hlen; [done|].
  destruct (Py.getitem data_row _) as [rate|]; simpl; [|done].
  destruct (Py.float rate) as [x|]; simpl; [|done].
  rewrite <- Hlen.
  destruct (Link.set link _ _) as [l1|] eqn:Hset; simpl; [|done].
  apply IH. apply set_Ok in Hset as [-> _]. done.
Qed.

(** ** The static policy *)

Lemma bridgetoll_not_input (g a : string) :
  a ∈ ["@tollbooth"; "@tollseg"; "@useclass"] -> bridgetoll g <> a.
Proof.
  intros Ha E. rewrite !elem_of_cons, elem_of_nil in Ha.
  destruct Ha as [->|[->|[->|[]]]]; cbv in E; congruence.
Qed.

Lemma valuetoll_not_input (g a : string) :
  a ∈ ["@tollbooth"; "@tollseg"; "@useclass"] -> valuetoll g <> a.
Proof.
  intros Ha E. rewrite !elem_of_cons, elem_of_nil in Ha.
  destruct Ha as [->|[->|[->|[]]]]; cbv in E; congruence.
Qed.

Lemma toll_index_of_Ok (link : Link.t) (index : Z) :
  toll_index_of link = Ok index <->
  exists tollbooth tollseg useclass,
    Link.attrs link !! "@tollbooth" = Some tollbooth /\
    Link.attrs link !! "@tollseg" = Some tollseg /\
    Link.attrs link !! "@useclass" = Some useclass /\
    index = Py.trunc (tollbooth * 1000 + tollseg * 10 + useclass).
Proof.
  unfold toll_index_of. split.
  - intros H. apply rbind_Ok in H as (tb & Htb & H).
    apply rbind_Ok in H as (seg & Hseg & H). apply rbind_Ok in H as (uc & Huc & [= <-]).
    apply get_Ok in Htb, Hseg, Huc. eauto 10.
  - intros (tb & seg & uc & Htb & Hseg & Huc & ->).
    apply get_Ok in Htb, Hseg, Huc. by rewrite Htb, Hseg, Huc.
Qed.

(** What the body of the static loop does with a link. *)
Lemma static_link_Ok (start_code : Z) (toll_index : gmap Z (gmap string string))
    (time_period : string) (groups : list (string * string))
    (link link' : Link.t) (s s' : State) :
  static_link start_code toll_index time_period groups link s = (Ok link', s') ->
  exists tollbooth,
    Link.attrs link !! "@tollbooth" = Some tollbooth /\
    if Py.truthy tollbooth then
      exists index,
        toll_index_of link = Ok index /\
        match toll_index !! index with
        | None =>
            link' = link /\
            s' = with_logged s (logged s ++ [failed_lookup_record index link])
        | Some data_row =>
            s' = s /\
            if Py.lt tollbooth (inject_Z start_code)
            then write_loop (fun g => bridgetoll g.2) (bridge_cents data_row time_period)
                            groups link = Ok link'
            else write_loop (fun g => valuetoll g.2)
                            (value_cents data_row time_period (Link.length link))
                            groups link = Ok link'
        end
    else link' = link /\ s' = s.
Proof.
  unfold static_link. intros H.
  apply mbind_Ok in H as (tb & s1 & Htb & H). apply lift_Ok in Htb as [Htb ->].
  apply get_Ok in Htb. exists tb. split; [done|].
  destruct (Py.truthy tb); [|by apply mret_Ok in H as [-> ->]].
  apply mbind_Ok in H as (index & s1 & Hidx & H). apply lift_Ok in Hidx as [Hidx ->].
  exists index. split; [done|].
  destruct (toll_index !! index) as [data_row|].
  - rewrite <- set_bridgetolls_write_loop, <- set_valuetolls_write_loop.
    destruct (Py.lt tb _); by apply lift_Ok in H as [-> ->].
  - apply mbind_Ok in H as (u & s1 & Hlog & H). apply mret_Ok in H as [-> ->].
    unfold warn_failed_lookup, logger in Hlog. by apply modify_Ok in Hlog as ->.
Qed.

Lemma keeps_static_link (R : relation State) `{!PreOrder R}
    start_code toll_index time_period groups link :
  (forall method text level indent, keeps R (logger method text level indent)) ->
  keeps R (static_link start_code toll_index time_period groups link).
Proof. intros HR. unfold static_link, warn_failed_lookup. keeps_auto; apply HR. Qed.

(** The table read from a file depends on the files only. *)
Lemma get_toll_indices_files (self : Component) (path : string) (s s' t : State)
    (toll_index : gmap Z (gmap string string)) :
  _get_toll_indices self path s = (Ok toll_index, s') ->
  files t = files s ->
  exists t', _get_toll_indices self path t = (Ok toll_index, t').
Proof.
  unfold _get_toll_indices, mbind, M_bind, logger, modify, open, lift. simpl.
  intros H Hfiles. rewrite Hfiles.
  destruct (files s !! path) as [text|]; [|done].
  destruct (Py.file_lines text) as [|first rest]; [done|].
  destruct (rfold _ rest ∅); [|done]. injection H as <- <-. eauto.
Qed.

(** Under the static policy [_set_tolls] is the loop of [static_link] over
    the links, with the table of the toll file. *)
Lemma set_tolls_static (self : Component) (network network' : Network.t)
    (time_period : string) (s s' : State) :
  run_dynamic_toll (tolls (config self)) = false ->
  _set_tolls self network time_period s = (Ok network', s') ->
  exists toll_index s0,
    _get_toll_indices self (get_abs_path self (file_path (tolls (config self)))) s
    = (Ok toll_index, s0) /\
    mmap (static_link (valuetoll_start_tollbooth_code (tolls (config self))) toll_index
            time_period
            (zip (src_vehicle_group_names (tolls (config self)))
                 (dst_vehicle_group_names (tolls (config self)))))
         (Network.links network) s0 = (Ok (Network.links network'), s') /\
    network' = Network.with_links network (Network.links network').
Proof.
  intros Hdyn. unfold _set_tolls. rewrite Hdyn. intros H.
  apply mbind_Ok in H as (toll_index & s1 & Hidx & H).
  apply mbind_Ok in H as (links & s3 & Hloop & H). apply mret_Ok in H as [-> ->].
  eauto.
Qed.

(** C5, in full: under the static policy every link with a nonzero
    [@tollbooth] is looked up in the toll table at
    [int(@tollbooth * 1000 + @tollseg * 10 + @useclass)]. On a hit, with
    rate the [toll<period>_<source group>] column of the row read as a
    number, each destination group's bridge toll becomes rate * 100 when
    [@tollbooth] is below the threshold, and otherwise each value toll
    becomes rate * length * 100. On a miss the link is left as it was and a
    warning is logged. With the row [1010, 2.50] the bridge link (toll
    booth 1, segment 1, use class 0) gets 250 in the AM period. *)
Theorem C5_static_policy :
  (forall (self : Component) (network network' : Network.t) (time_period : string)
          (s s' : State) (i : nat) (link : Link.t) (tollbooth : Q),
      let cfg := tolls (config self) in
      run_dynamic_toll cfg = false ->
      List.length (src_vehicle_group_names cfg) = List.length (dst_vehicle_group_names cfg) ->
      NoDup (dst_vehicle_group_names cfg) ->
      _set_tolls self network time_period s = (Ok network', s') ->
      Network.links network !! i = Some link ->
      Link.attrs link !! "@tollbooth" = Some tollbooth ->
      ~ (tollbooth == 0)%Q ->
      exists toll_index s0 tollseg useclass link',
        _get_toll_indices self (get_abs_path self (file_path cfg)) s = (Ok toll_index, s0) /\
        Link.attrs link !! "@tollseg" = Some tollseg /\
        Link.attrs link !! "@useclass" = Some useclass /\
        Network.links network' !! i = Some link' /\
        let index := Py.trunc (tollbooth * 1000 + tollseg * 10 + useclass) in
        match toll_index !! index with
        | Some data_row =>
            forall src_veh dst_veh,
              (src_veh, dst_veh)
                ∈ zip (src_vehicle_group_names cfg) (dst_vehicle_group_names cfg) ->
              exists text rate,
                data_row !! ("toll" +:+ Py.lower time_period +:+ "_" +:+ src_veh) = Some text /\
                Py.float text = Ok rate /\
                if Py.lt tollbooth (inject_Z (valuetoll_start_tollbooth_code cfg))
                then Link.attrs link' !! ("@bridgetoll_" +:+ dst_veh) = Some (rate * 100)%Q
                else Link.attrs link' !! ("@valuetoll_" +:+ dst_veh)
                     = Some (rate * Link.length link * 100)%Q
        | None =>
            link' = link /\ failed_lookup_record index link ∈ logged s'
        end) /\
  (exists network' s' link' toll,
      _set_tolls (example_self (example_tolls false) ["am"]) (example_network [bridge_link])
                 "AM" (example_state 0 0 ∅) = (Ok network', s') /\
      Network.links network' = [link'] /\
      Link.attrs link' !! "@bridgetoll_da" = Some toll /\ (toll == 250)%Q).
Proof.
  split.
  - intros self network network' time_period s s' i link tollbooth cfg
      Hdyn Hlen Hnd Hrun Hi Htb Htb0.
    destruct (set_tolls_static _ _ _ _ _ _ Hdyn Hrun) as (toll_index & s0 & Hidx & Hloop & _).
    fold cfg in Hidx, Hloop.
    eapply (mmap_lookup log_grows) in Hloop
      as (link' & s1 & s2 & Hlink & Hi' & _ & Hlog); [| |exact Hi].
    2:{ intros x. apply keeps_static_link; [tc_solve|]. apply keeps_logger_log_grows. }
    apply static_link_Ok in Hlink as (tb & Htb' & Hlink).
    assert (tb = tollbooth) as -> by congruence.
    assert (Py.truthy tollbooth = true) as Htruthy.
    { unfold Py.truthy. apply negb_true_iff, not_true_iff_false.
      intros E. by apply Qeq_bool_iff in E. }
    rewrite Htruthy in Hlink. destruct Hlink as (index & Hindex & Hlink).
    apply toll_index_of_Ok in Hindex as (tb & seg & uc & Htb'' & Hseg & Huc & ->).
    assert (tb = tollbooth) as -> by congruence.
    exists toll_index, s0, seg, uc, link'. split_and!; [done..|]. simpl.
    destruct (toll_index !! _) as [data_row|].
    + destruct Hlink as [-> Hlink]. intros src_veh dst_veh Hg.
      assert (NoDup ((fun g : string * string => bridgetoll g.2)
                       <$> zip (src_vehicle_group_names cfg) (dst_vehicle_group_names cfg)))
        as Hndb.
      { change (NoDup ((bridgetoll ∘ snd)
                  <$> zip (src_vehicle_group_names cfg) (dst_vehicle_group_names cfg))).
        rewrite (list_fmap_compose snd bridgetoll). apply NoDup_fmap_2.
        - intros ?? E. by apply bridgetoll_inj.
        - rewrite snd_zip; [done|lia]. }
      assert (NoDup ((fun g : string * string => valuetoll g.2)
                       <$> zip (src_vehicle_group_names cfg) (dst_vehicle_group_names cfg)))
        as Hndv.
      { change (NoDup ((valuetoll ∘ snd)
                  <$> zip (src_vehicle_group_names cfg) (dst_vehicle_group_names cfg))).
        rewrite (list_fmap_compose snd valuetoll). apply NoDup_fmap_2.
        - intros ?? E. by apply valuetoll_inj.
        - rewrite snd_zip; [done|lia]. }
      destruct (Py.lt tollbooth _).
      * destruct (write_loop_lookup _ _ _ _ _ _ Hlink Hndb Hg) as (v & Hv & Hget).
        unfold bridge_cents in Hv.
        apply rbind_Ok in Hv as (text & Htext & Hv).
        apply rbind_Ok in Hv as (rate & Hrate & [= <-]).
        exists text, rate. split_and!; [|done|done].
        unfold Py.getitem in Htext. simpl in Htext.
        by destruct (data_row !! _) eqn:E; [injection Htext as ->|].
      * destruct (write_loop_lookup _ _ _ _ _ _ Hlink Hndv Hg) as (v & Hv & Hget).
        unfold value_cents in Hv.
        apply rbind_Ok in Hv as (text & Htext & Hv).
        apply rbind_Ok in Hv as (rate & Hrate & [= <-]).
        exists text, rate. split_and!; [|done|done].
        unfold Py.getitem in Htext. simpl in Htext.
        by destruct (data_row !! _) eqn:E; [injection Htext as ->|].
    + destruct Hlink as [-> ->]. split; [done|].
      destruct Hlog as [more ->]. simpl. set_solver.
  - pose (r := _set_tolls (example_self (example_tolls false) ["am"])
                 (example_network [bridge_link]) "AM" (example_state 0 0 ∅)).
    pose (link' := default bridge_link
                     (head (Network.links (returned (example_network []) r)))).
    exists (returned (example_network []) r), r.2, link',
           (default 0%Q (Link.attrs link' !! "@bridgetoll_da")).
    split_and!; by vm_compute.
Qed.

Lemma C5_static_policy_witness :
  exists link',
    Network.links
      (returned (example_network [])
         (_set_tolls (example_self (example_tolls false) ["am"])
                     (example_network [bridge_link; unlisted_link]) "AM"
                     (example_state 0 0 ∅))) !! 1%nat = Some link' /\
    link' = unlisted_link.
Proof.
  pose (r := _set_tolls (example_self (example_tolls false) ["am"])
               (example_network [bridge_link; unlisted_link]) "AM" (example_state 0 0 ∅)).
  destruct (proj1 C5_static_policy
              (example_self (example_tolls false) ["am"])
              (example_network [bridge_link; unlisted_link])
              (returned (example_network []) r) "AM" (example_state 0 0 ∅) r.2
              1%nat unlisted_link 1%Q)
    as (toll_index & s0 & tollseg & useclass & link' & Hidx & Hseg & Huc & Hi & Hrow);
    [evaluate..|].
  exists link'. split; [exact Hi|].
  match type of Hidx with
  | ?call = _ =>
      assert (toll_index = returned ∅ call) as -> by (unfold returned; by rewrite Hidx)
  end.
  assert (tollseg = 2%Q) as ->.
  { apply (inj Some). rewrite <- Hseg. by vm_compute. }
  assert (useclass = 0%Q) as ->.
  { apply (inj Some). rewrite <- Huc. by vm_compute. }
  cbv zeta in Hrow.
  match type of Hrow with
  | match ?row with _ => _ end =>
      assert (row = None) as Hmiss by (by vm_compute); rewrite Hmiss in Hrow
  end.
  exact (proj1 Hrow).
Defined.

(** ** Idempotence of the static policy *)

Lemma mmap_fixed {A} (f : A -> M A) (xs : list A) :
  (forall x, x ∈ xs -> forall t, exists t', f x t = (Ok x, t')) ->
  forall t, exists t', mmap f xs t = (Ok xs, t').
Proof.
  induction xs as [|x xs IH]; simpl; intros Hf t.
  - by exists t.
  - destruct (Hf x (list_elem_of_here _ _) t) as [t1 H1].
    destruct (IH (fun y Hy => Hf y (list_elem_of_further _ _ _ Hy)) t1) as [t2 H2].
    exists t2. unfold mbind, M_bind. by rewrite H1, H2.
Qed.

Lemma mmap_elem_of {A B} (f : A -> M B) (xs : list A) (s s' : State) (ys : list B) (y : B) :
  mmap f xs s = (Ok ys, s') -> y ∈ ys -> exists x s1 s2, x ∈ xs /\ f x s1 = (Ok y, s2).
Proof.
  revert s ys. induction xs as [|x xs IH]; simpl; intros s ys H Hy.
  - apply mret_Ok in H as [-> _]. by inversion Hy.
  - apply mbind_Ok in H as (y0 & s0 & Hy0 & H).
    apply mbind_Ok in H as (ys0 & s3 & Hys0 & H).
    apply mret_Ok in H as [-> ->].
    apply elem_of_cons in Hy as [->|Hy].
    + exists x, s, s0. split; [left|done].
    + destruct (IH _ _ Hys0 Hy) as (x' & s1 & s2 & Hx' & Hf).
      exists x', s1, s2. split; [by right|done].
Qed.

(** A link that came out of the body of the static loop comes out of it
    again as it is. *)
Lemma static_link_idempotent (start_code : Z) (toll_index : gmap Z (gmap string string))
    (time_period : string) (groups : list (string * string))
    (link link' : Link.t) (s s' : State) :
  static_link start_code toll_index time_period groups link s = (Ok link', s') ->
  forall t, exists t',
    static_link start_code toll_index time_period groups link' t = (Ok link', t').
Proof.
  intros H t. apply static_link_Ok in H as (tb & Htb & H).
  assert (forall l, Link.attrs l !! "@tollbooth" = Some tb -> Py.truthy tb = false ->
                    static_link start_code toll_index time_period groups l t = (Ok l, t))
    as Hskip.
  { intros l Hl Hf. unfold static_link, mbind, M_bind, lift.
    apply get_Ok in Hl. by rewrite Hl, Hf. }
  destruct (Py.truthy tb) eqn:Htruthy.
  2:{ destruct H as [-> ->]. exists t. by apply Hskip. }
  destruct H as (index & Hindex & H).
  assert (forall l, Link.attrs l !! "@tollbooth" = Some tb -> toll_index_of l = Ok index ->
                    static_link start_code toll_index time_period groups l t
                    = match toll_index !! index with
                      | None => (Ok l, with_logged t (logged t ++ [failed_lookup_record index l]))
                      | Some data_row =>
                          (if Py.lt tb (inject_Z start_code)
                           then write_loop (fun g => bridgetoll g.2)
                                  (bridge_cents data_row time_period) groups l
                           else write_loop (fun g => valuetoll g.2)
                                  (value_cents data_row time_period (Link.length l)) groups l,
                           t)
                      end) as Hgo.
  { intros l Hl Hli. unfold static_link, mbind, M_bind, lift.
    apply get_Ok in Hl. rewrite Hl, Htruthy, Hli.
    destruct (toll_index !! index); [|done].
    rewrite set_bridgetolls_write_loop, set_valuetolls_write_loop.
    by destruct (Py.lt tb _). }
  destruct (toll_index !! index) as [data_row|] eqn:Hrow.
  2:{ destruct H as [-> ->]. eexists. rewrite (Hgo link Htb Hindex). done. }
  destruct H as [-> H].
  assert (forall a, a ∈ ["@tollbooth"; "@tollseg"; "@useclass"] ->
                    Link.attrs link' !! a = Link.attrs link !! a) as Hinputs.
  { intros a Ha. destruct (Py.lt tb _).
    - eapply write_loop_other; [exact H|]. intros Hin.
      apply list_elem_of_fmap in Hin as (g & -> & _). by eapply bridgetoll_not_input.
    - eapply write_loop_other; [exact H|]. intros Hin.
      apply list_elem_of_fmap in Hin as (g & -> & _). by eapply valuetoll_not_input. }
  assert (Link.length link' = Link.length link) as Hlen.
  { destruct (Py.lt tb _); apply write_loop_frame in H; by rewrite H. }
  assert (toll_index_of link' = Ok index) as Hindex'.
  { apply toll_index_of_Ok in Hindex as (tb1 & seg & uc & ? & ? & ? & ->).
    apply toll_index_of_Ok. exists tb1, seg, uc.
    rewrite !Hinputs by set_solver. done. }
  exists t. rewrite (Hgo link'); [|by rewrite Hinputs by set_solver|done].
  rewrite Hlen. f_equal.
  destruct (Py.lt tb _); by apply write_loop_idempotent in H.
Qed.

(** C6, in full: under the static policy, [_set_tolls] applied to the
    network it returned, with the same files, returns that same network:
    every bridge toll and value toll field is assigned the value it already
    has, nothing accumulates. *)
Theorem C6_static_policy_idempotent
    (self : Component) (network network' : Network.t) (time_period : string)
    (s s' : State) :
  run_dynamic_toll (tolls (config self)) = false ->
  _set_tolls self network time_period s = (Ok network', s') ->
  exists s'', _set_tolls self network' time_period s' = (Ok network', s'').
Proof.
  intros Hdyn Hrun.
  destruct (set_tolls_static _ _ _ _ _ _ Hdyn Hrun) as (toll_index & s0 & Hidx & Hloop & Hnet).
  assert (files s' = files s) as Hfiles.
  { apply keeps_get_toll_indices in Hidx as Hs0.
    assert (same_run s0 s') as Hs'.
    { eapply (keeps_mmap same_run); [|exact Hloop].
      intros x. apply keeps_static_link; [tc_solve|]. apply keeps_logger_same_run. }
    destruct Hs0 as (_&_&_&_&E0&_), Hs' as (_&_&_&_&E1&_). congruence. }
  destruct (get_toll_indices_files _ _ _ _ s' _ Hidx Hfiles) as [t0 Hidx'].
  destruct (mmap_fixed
              (static_link (valuetoll_start_tollbooth_code (tolls (config self))) toll_index
                 time_period
                 (zip (src_vehicle_group_names (tolls (config self)))
                      (dst_vehicle_group_names (tolls (config self)))))
              (Network.links network')) with (t := t0) as [t1 Hloop'].
  { intros link' Hin.
    destruct (mmap_elem_of _ _ _ _ _ _ Hloop Hin) as (link & s1 & s2 & _ & Hlink).
    by eapply static_link_idempotent. }
  exists t1. unfold _set_tolls. rewrite Hdyn.
  unfold mbind at 1, M_bind at 1. rewrite Hidx'.
  unfold mbind at 1, M_bind at 1. rewrite Hloop'.
  unfold mret, M_ret. rewrite Hnet. done.
Qed.

Lemma C6_static_policy_idempotent_witness :
  let self := example_self (example_tolls false) ["am"] in
  let once := _set_tolls self (example_network [bridge_link; tollway_link; unlisted_link])
                         "AM" (example_state 0 0 ∅) in
  exists s'',
    _set_tolls self (returned (example_network []) once) "AM" once.2
    = (Ok (returned (example_network []) once), s'').
Proof.
  intros self once.
  apply (C6_static_policy_idempotent self
           (example_network [bridge_link; tollway_link; unlisted_link])
           (returned (example_network []) once) "AM" (example_state 0 0 ∅) once.2);
    evaluate.
Defined.

(** ** Bridge tolls and value tolls *)



(** Each body of [_set_tolls] keeps the other side. *)










(** ** The run *)

Global Instance same_controller_preorder : PreOrder same_controller.
Proof.
  split.
  - by intros s.
  - intros s1 s2 s3 (?&?&?&?) (?&?&?&?). unfold same_controller.
    split_and!; congruence.
Qed.

Lemma same_run_same_controller (s s' : State) : same_run s s' -> same_controller s s'.
Proof. intros (?&?&?&?&?&?). by split_and!. Qed.

Lemma keeps_initial_link (R : relation State) `{!PreOrder R}
    start_code toll_index time_period groups link :
  (forall method text level indent, keeps R (logger method text level indent)) ->
  keeps R (initial_link start_code toll_index time_period groups link).
Proof. intros HR. unfold initial_link, warn_failed_lookup. keeps_auto; apply HR. Qed.

(** [_set_tolls] writes to the log and to the change counter only. *)
Lemma keeps_set_tolls (self : Component) (network : Network.t) (time_period : string) :
  keeps same_run (_set_tolls self network time_period).
Proof.
  unfold _set_tolls. keeps_auto;
    try apply keeps_get_toll_indices; try apply keeps_logger_same_run.
  - apply keeps_initial_link; [tc_solve|]. apply keeps_logger_same_run.
  - apply keeps_update_link; [tc_solve|]. by intros s.
  - apply keeps_static_link; [tc_solve|]. apply keeps_logger_same_run.
Qed.

Lemma keeps_called (R : relation State) (c : Call) :
  (forall s cs, R s (with_calls s cs)) -> keeps R (called c).
Proof. intros HR s r s' [= <- <-]. apply HR. Qed.

Lemma keeps_put_scenario (R : relation State) time scenario :
  (forall s b, R s (with_emmebank s b)) -> keeps R (put_scenario time scenario).
Proof. intros HR s r s' [= <- <-]. apply HR. Qed.

Lemma keeps_get_emme_scenario (R : relation State) `{!Reflexive R} time :
  keeps R (get_emme_scenario time).
Proof.
  intros s r s'. unfold get_emme_scenario.
  destruct (emmebank s !! time); intros [= <- <-]; done.
Qed.

(** Nothing in the body of the loop over the time periods touches the
    iteration counters or the stop flag. *)
Lemma keeps_prepare (self : Component) (time : string) :
  keeps same_controller (prepare self time).
Proof.
  unfold prepare. keeps_auto;
    try (apply keeps_called; by intros);
    try (apply keeps_put_scenario; by intros);
    try (apply keeps_get_emme_scenario; tc_solve).
  intros s r s' H. apply same_run_same_controller. by eapply keeps_set_tolls.
Qed.

(** The calls recorded so far stay, and the log and the calls get longer. *)
Lemma called_Ok (c : Call) (s s' : State) (u : unit) :
  called c s = (Ok u, s') -> s' = with_calls s (calls s ++ [c]).
Proof. unfold called. apply modify_Ok. Qed.

Lemma get_emme_scenario_Ok (time : string) (s s' : State) (scenario : Network.t) :
  get_emme_scenario time s = (Ok scenario, s') -> s' = s.
Proof.
  unfold get_emme_scenario. by destruct (emmebank s !! time); intros [= <-].
Qed.

(** The calls of one time period. *)
Lemma prepare_calls (self : Component) (time : string) (s s' : State) :
  prepare self time s = (Ok tt, s') ->
  calls s' = calls s
             ++ (if (iteration s =? 0)%Z && (_dynamic_toll_iter s =? 0)%Z
                 then [CreateClassAttributes time] else [])
             ++ period_calls time.
Proof.
  unfold prepare. intros H.
  apply mbind_Ok in H as (scenario & s1 & Hsc & H).
  apply get_emme_scenario_Ok in Hsc as ->.
  apply mbind_Ok in H as (it & s1 & Hit & H). apply read_Ok in Hit as [-> ->].
  apply mbind_Ok in H as (dit & s1 & Hit & H). apply read_Ok in Hit as [-> ->].
  apply mbind_Ok in H as (u & s1 & Hcreate & H).
  assert (calls s1 = calls s ++ (if (iteration s =? 0)%Z && (_dynamic_toll_iter s =? 0)%Z
                                 then [CreateClassAttributes time] else [])) as Hs1.
  { destruct (_ && _).
    - apply mbind_Ok in Hcreate as (u1 & t & Hc & Hput). apply called_Ok in Hc as ->.
      unfold put_scenario in Hput. by apply modify_Ok in Hput as ->.
    - apply mret_Ok in Hcreate as [_ ->]. by rewrite app_nil_r. }
  clear Hcreate. rewrite app_assoc, <- Hs1. clear Hs1 s.
  apply mbind_Ok in H as (network & s2 & Hsc & H).
  apply get_emme_scenario_Ok in Hsc as ->.
  apply mbind_Ok in H as (u1 & s2 & Hc1 & H). apply called_Ok in Hc1 as ->.
  apply mbind_Ok in H as (n1 & s3 & Htolls & H).
  apply keeps_set_tolls in Htolls as (_&_&_&_&_&Hcalls3). simpl in Hcalls3.
  apply mbind_Ok in H as (u2 & s4 & Hc2 & H). apply called_Ok in Hc2 as ->.
  apply mbind_Ok in H as (n2 & s5 & Hl & H). apply lift_Ok in Hl as [_ ->].
  apply mbind_Ok in H as (u3 & s6 & Hc3 & H). apply called_Ok in Hc3 as ->.
  apply mbind_Ok in H as (n3 & s7 & Hl & H). apply lift_Ok in Hl as [_ ->].
  apply mbind_Ok in H as (u4 & s8 & Hc4 & H). apply called_Ok in Hc4 as ->.
  apply mbind_Ok in H as (n4 & s9 & Hl & H). apply lift_Ok in Hl as [_ ->].
  apply mbind_Ok in H as (u5 & s10 & Hc5 & H). apply called_Ok in Hc5 as ->.
  apply mbind_Ok in H as (n5 & s11 & Hl & H). apply lift_Ok in Hl as [_ ->].
  apply mbind_Ok in H as (u6 & s12 & Hc6 & H). apply called_Ok in Hc6 as ->.
  apply mbind_Ok in H as (n6 & s13 & Hl & H). apply lift_Ok in Hl as [_ ->].
  apply mbind_Ok in H as (u7 & s14 & Hc7 & H). apply called_Ok in Hc7 as ->.
  unfold put_scenario in H. apply modify_Ok in H as ->. simpl.
  rewrite Hcalls3. unfold period_calls. by rewrite <- !app_assoc.
Qed.

(** The calls of the loop over the time periods. *)
Lemma mfor_prepare_calls (self : Component) (periods : list string) (s s' : State) :
  mfor periods (prepare self) s = (Ok tt, s') ->
  calls s' = calls s
             ++ flat_map (fun time =>
                            (if (iteration s =? 0)%Z && (_dynamic_toll_iter s =? 0)%Z
                             then [CreateClassAttributes time] else [])
                            ++ period_calls time) periods.
Proof.
  revert s. induction periods as [|time periods IH]; simpl; intros s H.
  - apply mret_Ok in H as [_ ->]. by rewrite app_nil_r.
  - apply mbind_Ok in H as ([] & s1 & H1 & H).
    apply keeps_prepare in H1 as Hsame. destruct Hsame as (Ei & Ed & _).
    apply prepare_calls in H1. apply IH in H. rewrite H, H1, Ei, Ed.
    by rewrite <- !app_assoc.
Qed.

Lemma created_app (cs1 cs2 : list Call) : created (cs1 ++ cs2) = created cs1 ++ created cs2.
Proof. apply omap_app. Qed.

Lemma created_periods (guard : bool) (periods : list string) :
  created (flat_map (fun time => (if guard then [CreateClassAttributes time] else [])
                                 ++ period_calls time) periods)
  = if guard then periods else [].
Proof.
  induction periods as [|time periods IH]; simpl.
  - by destruct guard.
  - rewrite !created_app, IH. by destruct guard.
Qed.

(** [run], step by step. *)
Lemma run_Ok (self : Component) (s s' : State) :
  run self s = (Ok tt, s') ->
  exists s1,
    mfor (time_period_names self) (prepare self) (with_dynamic_toll_change s 0) = (Ok tt, s1) /\
    (if run_dynamic_toll (tolls (config self))
     then accumulate_dynamic_toll_iteration s1 = (Ok tt, s')
     else s' = s1).
Proof.
  unfold run. intros H.
  apply mbind_Ok in H as (u & s0 & Hreset & H). apply modify_Ok in Hreset as ->.
  apply mbind_Ok in H as ([] & s1 & Hloop & H).
  exists s1. split; [done|].
  destruct (run_dynamic_toll _); [done|]. by apply mret_Ok in H as [_ ->].
Qed.

Lemma accumulate_Ok (s1 s' : State) :
  accumulate_dynamic_toll_iteration s1 = (Ok tt, s') ->
  let s2 := if (0 <? _dynamic_toll_iter s1)%Z && (dynamic_toll_change s1 =? 0)%Z
            then with__stop_dynamic_toll s1 true else s1 in
  s' = if _stop_dynamic_toll s2
       then s2 else with__dynamic_toll_iter s2 (_dynamic_toll_iter s2 + 1).
Proof.
  unfold accumulate_dynamic_toll_iteration, mbind, M_bind, read, modify, mret, M_ret.
  simpl. destruct (_ && _); simpl.
  - by intros [= <-].
  - destruct (_stop_dynamic_toll s1); simpl; by intros [= <-].
Qed.

(** C3, in full: with dynamic tolling enabled, a [run] that completes has
    gone through the loop over all time periods, which starts with the
    change counter at 0 and leaves the dynamic toll iteration counter and
    the stop flag as they were (no pass of the loop body ever changes
    them), and has then updated them once: if the counter was positive and
    the change counter is 0 the stop flag is set and the counter stays;
    otherwise the stop flag stays and the counter grows by exactly 1 when
    the flag is not set. Nothing else changes after the loop. *)
Theorem C3_dynamic_toll_state_updated_after_all_periods (self : Component) (s s' : State) :
  run_dynamic_toll (tolls (config self)) = true ->
  run self s = (Ok tt, s') ->
  (forall time t r t',
      prepare self time t = (r, t') ->
      _dynamic_toll_iter t' = _dynamic_toll_iter t /\
      _stop_dynamic_toll t' = _stop_dynamic_toll t) /\
  exists s1,
    mfor (time_period_names self) (prepare self) (with_dynamic_toll_change s 0) = (Ok tt, s1) /\
    _dynamic_toll_iter s1 = _dynamic_toll_iter s /\
    _stop_dynamic_toll s1 = _stop_dynamic_toll s /\
    (if (0 <? _dynamic_toll_iter s)%Z && (dynamic_toll_change s1 =? 0)%Z
     then _stop_dynamic_toll s' = true /\
          _dynamic_toll_iter s' = _dynamic_toll_iter s
     else _stop_dynamic_toll s' = _stop_dynamic_toll s /\
          _dynamic_toll_iter s' = (if _stop_dynamic_toll s then _dynamic_toll_iter s
                                   else _dynamic_toll_iter s + 1)%Z) /\
    iteration s' = iteration s1 /\ dynamic_toll_change s' = dynamic_toll_change s1 /\
    emmebank s' = emmebank s1 /\ logged s' = logged s1 /\ calls s' = calls s1.
Proof.
  intros Hdyn Hrun. split.
  { intros time t r t' H. apply keeps_prepare in H as (_ & ? & ? & _). done. }
  apply run_Ok in Hrun as (s1 & Hloop & Hacc). rewrite Hdyn in Hacc.
  exists s1. split; [done|].
  assert (same_controller (with_dynamic_toll_change s 0) s1) as (_ & Ed & Es & _).
  { eapply (keeps_mfor same_controller); [|exact Hloop]. apply keeps_prepare. }
  simpl in Ed, Es. apply accumulate_Ok in Hacc. cbv zeta in Hacc. rewrite Ed in Hacc.
  destruct (_ && _).
  - subst s'. simpl. by split_and!.
  - rewrite Es in Hacc. subst s'.
    destruct (_stop_dynamic_toll s); simpl; split_and!; congruence.
Qed.

Lemma C3_dynamic_toll_state_updated_after_all_periods_witness :
  _dynamic_toll_iter
    (run (example_self (example_tolls true) ["am"]) (example_state 0 0 one_period_bank)).2
  = (0 + 1)%Z.
Proof.
  pose (self := example_self (example_tolls true) ["am"]).
  pose (s := example_state 0 0 one_period_bank).
  destruct (C3_dynamic_toll_state_updated_after_all_periods self s (run self s).2)
    as (_ & s1 & _ & _ & _ & Hupdate & _); [evaluate..|].
  exact (proj2 Hupdate).
Defined.

(** C9, as the code has it: in a [run] that completes, the attributes are
    created if and only if the overall iteration and the dynamic toll
    iteration are both 0 when it starts, and then they are created once for
    each time period, in the scenario of that period, in the order of the
    periods. *)
Theorem C9_attributes_created_for_every_period (self : Component) (s s' : State) :
  run self s = (Ok tt, s') ->
  exists new_calls,
    calls s' = calls s ++ new_calls /\
    created new_calls = if (iteration s =? 0)%Z && (_dynamic_toll_iter s =? 0)%Z
                        then time_period_names self else [].
Proof.
  intros Hrun. apply run_Ok in Hrun as (s1 & Hloop & Hacc).
  apply mfor_prepare_calls in Hloop. simpl in Hloop.
  assert (calls s' = calls s1) as ->.
  { destruct (run_dynamic_toll _); [|by subst].
    apply accumulate_Ok in Hacc. cbv zeta in Hacc. subst s'.
    destruct ((0 <? _dynamic_toll_iter s1)%Z && _); [reflexivity|].
    destruct (_stop_dynamic_toll s1); reflexivity. }
  eexists. split; [exact Hloop|]. apply created_periods.
Qed.

Lemma C9_attributes_created_for_every_period_witness :
  exists new_calls,
    calls (run (example_self (example_tolls true) ["am"])
               (example_state 0 0 one_period_bank)).2 = [] ++ new_calls /\
    created new_calls = ["AM"].
Proof.
  apply (C9_attributes_created_for_every_period
           (example_self (example_tolls true) ["am"]) (example_state 0 0 one_period_bank)).
  evaluate.
Defined.

(** The claim as it was stated fails with two time periods: the first
    [run] creates the attributes twice, once in each scenario. *)
Lemma C9_counterexample :
  exists s',
    run (example_self (example_tolls true) ["am"; "pm"]) (example_state 0 0 two_period_bank)
    = (Ok tt, s') /\
    created (calls s') = ["AM"; "PM"] /\
    List.length (created (calls s')) <> 1%nat.
Proof.
  exists (run (example_self (example_tolls true) ["am"; "pm"])
              (example_state 0 0 two_period_bank)).2.
  split_and!; by vm_compute.
Qed.

(** ** Input validation *)







(** The loop over the required columns collects the missing ones, all of
    them and in order, and writes to the log only. *)
Lemma find_missing_Ok (header columns : list string) (s : State) :
  exists s',
    find_missing header columns s = (Ok (missing_from header columns), s') /\
    same_run s s'.
Proof.
  unfold find_missing.
  assert (forall acc t, exists t',
             mfold (fun missing column =>
                      if bool_decide (column ∈ header) then mret missing
                      else logger "log" ("Tolls file missing column: " +:+ column)
                                  (Some "ERROR") false;;
                           mret (missing ++ [column]))
                   columns acc t
             = (Ok (acc ++ missing_from header columns), t') /\ same_run t t') as H.
  { unfold missing_from.
    induction columns as [|c columns IH]; simpl; intros acc t.
    - exists t. by rewrite app_nil_r.
    - unfold mbind at 1, M_bind at 1. rewrite filter_cons.
      destruct (decide (c ∈ header)) as [Hin|Hnin].
      + rewrite bool_decide_true by done. simpl.
        rewrite decide_False by (by intros ?). apply IH.
      + rewrite bool_decide_false by done. simpl.
        rewrite decide_True by done.
        destruct (IH (acc ++ [c]) (with_logged t (logged t ++
                   [{| log_method := "log";
                       log_text := "Tolls file missing column: " +:+ c;
                       log_level := Some "ERROR"; log_indent := false |}])))
          as (t' & Hrun & Hsame).
        exists t'. rewrite <- app_assoc in Hrun. split; [exact Hrun|].
        etrans; [|exact Hsame]. done. }
  apply (H [] s).
Qed.




(** ** Modes of the classes *)

Lemma rfold_app {A B} (body : A -> B -> result A) (xs ys : list B) (a : A) :
  rfold body (xs ++ ys) a = rfold body xs a ≫= rfold body ys.
Proof.
  revert a. induction xs as [|x xs IH]; simpl; intros a; [done|].
  destruct (body a x); simpl; [apply IH|done].
Qed.

Lemma first_with_code_cons (code : string) (c : AssignClass) (classes : list AssignClass) :
  first_with_code code (c :: classes)
  = if decide (mode_code c = code) then Some c else first_with_code code classes.
Proof.
  unfold first_with_code. simpl. case_decide; [done|].
  destruct (list_find _ classes) as [[i c']|]; done.
Qed.

Lemma first_with_code_None (code : string) (classes : list AssignClass) :
  (forall c, c ∈ classes -> mode_code c <> code) -> first_with_code code classes = None.
Proof.
  induction classes as [|c classes IH]; intros H; [done|].
  rewrite first_with_code_cons, decide_False by (apply H; left).
  apply IH. intros c' Hc'. apply H. by right.
Qed.

Lemma first_with_code_app (code : string) (before after : list AssignClass) :
  (forall c, c ∈ before -> mode_code c <> code) ->
  first_with_code code (before ++ after) = first_with_code code after.
Proof.
  induction before as [|c before IH]; intros H; [done|]. simpl.
  rewrite first_with_code_cons, decide_False by (apply H; left).
  apply IH. intros c' Hc'. apply H. by right.
Qed.

(** What the loop over the classes has recorded and created when it ends:
    for every mode code, the exclusion list of the first class that has it,
    and one mode, described by the name of that class. *)
Lemma create_class_modes_loop (classes : list AssignClass) :
  forall network mode_excluded_links state',
    rfold create_class_mode classes (network, mode_excluded_links) = Ok state' ->
    Network.links state'.1 = Network.links network /\
    forall code,
      state'.2 !! code
      = match mode_excluded_links !! code with
        | Some ex_links => Some ex_links
        | None => excluded_links <$> first_with_code code classes
        end /\
      Network.modes state'.1 !! code
      = match mode_excluded_links !! code, first_with_code code classes with
        | None, Some c => Some {| mode_type := "AUX_AUTO"; mode_description := name c |}
        | _, _ => Network.modes network !! code
        end.
Proof.
  induction classes as [|c classes IH]; simpl; intros network mel state' H.
  - injection H as <-. split; [done|]. intros code. simpl.
    by destruct (mel !! code).
  - apply rbind_Ok in H as ([network1 mel1] & Hc & H).
    destruct (IH _ _ _ H) as [Hlinks Hcodes]. clear IH H.
    unfold create_class_mode in Hc.
    destruct (mel !! mode_code c) as [ex_links1|] eqn:Hmel.
    + case_bool_decide; [done|]. injection Hc as <- <-.
      split; [done|]. intros code. destruct (Hcodes code) as [H1 H2].
      rewrite H1, H2, first_with_code_cons.
      case_decide; [subst code; by rewrite Hmel|done].
    + apply rbind_Ok in Hc as (network2 & Hcreate & [= <- <-]).
      unfold Network.create_mode in Hcreate.
      destruct (Network.modes network !! mode_code c) eqn:Hmode; [done|].
      injection Hcreate as <-. simpl in *.
      split; [done|]. intros code. destruct (Hcodes code) as [H1 H2].
      rewrite H1, H2, first_with_code_cons. clear H1 H2.
      case_decide as Hcode.
      * subst code. rewrite Hmel, !lookup_insert_eq. done.
      * rewrite !lookup_insert_ne by done. by destruct (mel !! code).
Qed.

(** The loop runs to its end when the classes that share a code agree and
    the codes are free. *)
Lemma create_class_modes_total (classes : list AssignClass) :
  (forall c c', c ∈ classes -> c' ∈ classes -> mode_code c = mode_code c' ->
                excluded_links c = excluded_links c') ->
  forall network mode_excluded_links,
    (forall c, c ∈ classes ->
               match mode_excluded_links !! mode_code c with
               | Some ex_links => ex_links = excluded_links c
               | None => Network.modes network !! mode_code c = None
               end) ->
    exists state', rfold create_class_mode classes (network, mode_excluded_links) = Ok state'.
Proof.
  induction classes as [|c classes IH]; simpl; intros Hagree network mel Hinv; [eauto|].
  pose proof (Hinv c (list_elem_of_here _ _)) as Hc.
  assert (forall c1 c2, c1 ∈ classes -> c2 ∈ classes -> mode_code c1 = mode_code c2 ->
                        excluded_links c1 = excluded_links c2) as Hagree'.
  { intros c1 c2 H1 H2. apply Hagree; by right. }
  unfold create_class_mode at 1.
  destruct (mel !! mode_code c) as [ex_links1|] eqn:Hmel.
  - subst ex_links1. rewrite bool_decide_false by (by intros ?). simpl.
    apply IH; [done|]. intros c' Hc'. apply Hinv. by right.
  - unfold Network.create_mode. rewrite Hc. simpl.
    apply IH; [done|]. intros c' Hc'. simpl.
    destruct (decide (mode_code c = mode_code c')) as [E|Hne].
    + rewrite <- E, lookup_insert_eq. apply Hagree; [left|by right|done].
    + rewrite !lookup_insert_ne by done. apply Hinv. by right.
Qed.

Lemma contains_char_append (c : ascii) (a b : string) :
  Py.contains_char c (a +:+ b) = Py.contains_char c a || Py.contains_char c b.
Proof. induction a as [|x a IH]; simpl; [done|]. by rewrite IH, orb_assoc. Qed.

(** A character of a text occurs in every text in which the text occurs. *)
Lemma occurs_in_contains_char (c : ascii) (part whole : string) :
  occurs_in part whole -> Py.contains_char c part = true -> Py.contains_char c whole = true.
Proof.
  intros (before & after & ->) H. rewrite !contains_char_append, H.
  by rewrite orb_true_r.
Qed.

(** C8, as the code has it: when a class has the mode code of an earlier
    class and another exclusion list, [_set_link_modes] raises an
    [Exception] whose message gives the shared mode code and both lists,
    that of the first class with the code and that of the offending class
    (it does not give the names of the classes). When the classes that
    share a code have the same list and the codes are free, the loop
    creates one mode for each distinct code, described by the name of the
    first class that has it, and raises nothing. *)
Theorem C8_shared_mode_codes :
  (forall (self : Component) (network : Network.t) (reset : MazToMaz * Network.t)
          (before between after : list AssignClass) (c1 c2 : AssignClass),
      reset_modes self network = Ok reset ->
      classes (config self) = before ++ c1 :: between ++ c2 :: after ->
      (forall c, c ∈ before -> mode_code c <> mode_code c2) ->
      mode_code c1 = mode_code c2 ->
      excluded_links c1 <> excluded_links c2 ->
      (exists state, create_class_modes (before ++ c1 :: between) reset.2 = Ok state) ->
      _set_link_modes self network
      = Raise (Exception
          ("config error: highway.classes, duplicated mode codes ('" +:+ mode_code c2
           +:+ "') with different excluded links: " +:+ Py.repr_list (excluded_links c1)
           +:+ " and " +:+ Py.repr_list (excluded_links c2)))) /\
  (forall (classes : list AssignClass) (network : Network.t),
      (forall c c', c ∈ classes -> c' ∈ classes -> mode_code c = mode_code c' ->
                    excluded_links c = excluded_links c') ->
      (forall c, c ∈ classes -> Network.modes network !! mode_code c = None) ->
      exists network' mode_excluded_links,
        create_class_modes classes network = Ok (network', mode_excluded_links) /\
        Network.links network' = Network.links network /\
        forall code,
          Network.modes network' !! code
          = match first_with_code code classes with
            | Some c => Some {| mode_type := "AUX_AUTO"; mode_description := name c |}
            | None => Network.modes network !! code
            end).
Proof.
  split.
  - intros self network reset before between after c1 c2 Hreset Hclasses Hfirst Hcode Hex
      [[network1 mel] Hbefore].
    unfold _set_link_modes. rewrite Hreset. simpl.
    unfold create_class_modes in *. rewrite Hclasses.
    replace (before ++ c1 :: between ++ c2 :: after)
      with ((before ++ c1 :: between) ++ c2 :: after) by (by rewrite <- app_assoc).
    rewrite rfold_app, Hbefore. simpl.
    destruct (create_class_modes_loop _ _ _ _ Hbefore) as [_ Hcodes].
    destruct (Hcodes (mode_code c2)) as [Hmel _]. simpl in Hmel.
    rewrite lookup_empty, first_with_code_app in Hmel by done.
    rewrite first_with_code_cons, decide_True in Hmel by done. simpl in Hmel.
    unfold create_class_mode at 1. rewrite Hmel.
    rewrite bool_decide_true by (by intros E; apply Hex).
    reflexivity.
  - intros classes network Hagree Hfree.
    destruct (create_class_modes_total classes Hagree network ∅) as [[network' mel] Hrun].
    { intros c Hc. rewrite lookup_empty. by apply Hfree. }
    exists network', mel. split; [exact Hrun|].
    destruct (create_class_modes_loop _ _ _ _ Hrun) as [Hlinks Hcodes].
    split; [done|]. intros code. destruct (Hcodes code) as [_ Hmodes].
    simpl in Hmodes. rewrite lookup_empty in Hmodes. exact Hmodes.
Qed.

Lemma C8_shared_mode_codes_witness :
  _set_link_modes (example_component (example_tolls false) conflicting_classes ["am"])
                  (example_network [bridge_link])
  = Raise (Exception
      ("config error: highway.classes, duplicated mode codes ('h') with different "
       +:+ "excluded links: ['is_sr3'] and ['is_sr2']")) /\
  exists network' mode_excluded_links,
    create_class_modes agreeing_classes (example_network [bridge_link])
    = Ok (network', mode_excluded_links) /\
    Network.modes network' !! "h"
    = Some {| mode_type := "AUX_AUTO"; mode_description := "HOV2" |}.
Proof.
  split.
  - pose (self := example_component (example_tolls false) conflicting_classes ["am"]).
    pose (network := example_network [bridge_link]).
    apply (proj1 C8_shared_mode_codes self network
             (returned ({| maz_mode_code := ""; maz_excluded_links := [] |}, network)
                       (reset_modes self network, example_state 0 0 ∅))
             [example_class] [] [] (hov "HOV2" ["is_sr3"]) (hov "HOV3" ["is_sr2"]));
      [evaluate|evaluate| |evaluate|by intros [=]|by eexists; vm_compute].
    intros c Hc. apply list_elem_of_singleton in Hc as ->. by intros [=].
  - destruct (proj2 C8_shared_mode_codes agreeing_classes (example_network [bridge_link]))
      as (network' & mel & Hrun & _ & Hmodes).
    + intros c c' Hc Hc' _. unfold agreeing_classes in *.
      rewrite !elem_of_cons, elem_of_nil in Hc, Hc'.
      destruct Hc as [->|[->|[->|[]]]], Hc' as [->|[->|[->|[]]]]; reflexivity.
    + intros c Hc. unfold agreeing_classes in Hc.
      rewrite !elem_of_cons, elem_of_nil in Hc.
      destruct Hc as [->|[->|[->|[]]]]; reflexivity.
    + exists network', mel. split; [exact Hrun|]. apply (Hmodes "h").
Defined.

(** The claim as it was stated fails on the conflicting classes: the
    message of the exception has neither class name in it (no capital H
    occurs in it at all). *)
Lemma C8_counterexample :
  exists message,
    _set_link_modes (example_component (example_tolls false) conflicting_classes ["am"])
                    (example_network [bridge_link])
    = Raise (Exception message) /\
    ~ occurs_in "HOV2" message /\ ~ occurs_in "HOV3" message.
Proof.
  eexists. split; [by vm_compute|].
  split; intros H; by apply (occurs_in_contains_char "H") in H.
Qed.

(** * The other steps of the run *)

(** ** Total flow *)

Lemma flow_not_total_flow (x : string) : "@flow_" +:+ x <> "@total_flow".
Proof. intros H. cbv in H. congruence. Qed.

(** The loop over the classes adds their flows to what [@total_flow]
    holds, in the order of the classes, and touches nothing else. *)
Lemma total_flow_loop (classes : list AssignClass) :
  forall (link link' : Link.t) (acc : Q),
    Link.attrs link !! "@total_flow" = Some acc ->
    rfold (fun link assign_class =>
             total ← Link.get link "@total_flow";
             flow ← Link.get link ("@flow_" +:+ Py.lower (name assign_class));
             Link.set link "@total_flow" (total + flow)%Q)
          classes link = Ok link' ->
    exists flows,
      Forall2 (fun c f => Link.attrs link !! ("@flow_" +:+ Py.lower (name c)) = Some f)
              classes flows /\
      link' = Link.with_attrs link
                (<["@total_flow" := fold_left Qplus flows acc]> (Link.attrs link)).
Proof.
  induction classes as [|c classes IH]; simpl; intros link link' acc Hacc H.
  - injection H as <-. exists []. split; [constructor|]. simpl.
    rewrite insert_id by done. by destruct link.
  - apply rbind_Ok in H as (link1 & H1 & H).
    apply rbind_Ok in H1 as (total & Htotal & H1). apply get_Ok in Htotal.
    apply rbind_Ok in H1 as (flow & Hflow & H1). apply get_Ok in Hflow.
    apply set_Ok in H1 as [-> _].
    assert (total = acc) as -> by congruence.
    destruct (IH _ _ (acc + flow)%Q (lookup_insert_eq _ _ _) H) as (flows & Hflows & ->).
    exists (flow :: flows). split.
    + constructor; [done|]. eapply Forall2_impl; [exact Hflows|].
      intros c' f Hf. simpl in Hf.
      by rewrite lookup_insert_ne in Hf by (apply not_eq_sym, flow_not_total_flow).
    + simpl. by rewrite insert_insert_eq.
Qed.

(** X1: after [_calc_total_flow], on every link [@total_flow] is the sum,
    from 0 and in the order of the classes, of the flows [@flow_<class>]
    the link carried, whatever [@total_flow] held before; every other
    attribute and field of the link is as it was. *)
Theorem X1_total_flow_is_sum_of_class_flows
    (self : Component) (network network' : Network.t) (i : nat) (link : Link.t) :
  _calc_total_flow self network = Ok network' ->
  Network.links network !! i = Some link ->
  exists flows,
    Forall2 (fun c f => Link.attrs link !! ("@flow_" +:+ Py.lower (name c)) = Some f)
            (classes (config self)) flows /\
    Network.links network' !! i
    = Some (Link.with_attrs link
              (<["@total_flow" := fold_left Qplus flows 0%Q]> (Link.attrs link))).
Proof.
  unfold _calc_total_flow. intros H Hi.
  apply rbind_Ok in H as (links & Hlinks & [= <-]). simpl.
  destruct (rmap_lookup _ _ _ _ _ Hlinks Hi) as (link' & Hlink & Hi').
  apply rbind_Ok in Hlink as (link0 & Hset & Hloop).
  apply set_Ok in Hset as [-> _].
  destruct (total_flow_loop _ _ _ 0%Q (lookup_insert_eq _ _ _) Hloop) as (flows & Hflows & ->).
  exists flows. split.
  - eapply Forall2_impl; [exact Hflows|]. intros c f Hf. simpl in Hf.
    by rewrite lookup_insert_ne in Hf by (apply not_eq_sym, flow_not_total_flow).
  - rewrite Hi'. simpl. by rewrite insert_insert_eq.
Qed.

Lemma X1_total_flow_is_sum_of_class_flows_witness :
  exists flows,
    Forall2 (fun c f => Link.attrs loaded_link !! ("@flow_" +:+ Py.lower (name c)) = Some f)
            conflicting_classes flows /\
    Network.links
      (returned (example_network [])
         (_calc_total_flow (example_component (example_tolls false) conflicting_classes ["am"])
                           (example_network [loaded_link]), example_state 0 0 ∅)) !! 0%nat
    = Some (Link.with_attrs loaded_link
              (<["@total_flow" := fold_left Qplus flows 0%Q]> (Link.attrs loaded_link))).
Proof.
  apply (X1_total_flow_is_sum_of_class_flows
           (example_component (example_tolls false) conflicting_classes ["am"])
           (example_network [loaded_link])); evaluate.
Defined.

(** ** Skim lengths *)

(** X2: after [_calc_link_skim_lengths], [@hov_length] of a link is its
    length when [@useclass] lies in [2, 3] and 0 otherwise, [@toll_length]
    is its length when [@tollbooth] is at or above the value toll threshold
    and 0 otherwise (toll booth 0 included when the threshold is not
    positive), and no other attribute has changed. *)
Theorem X2_skim_lengths
    (self : Component) (network network' : Network.t) (i : nat) (link : Link.t) :
  _calc_link_skim_lengths self network = Ok network' ->
  Network.links network !! i = Some link ->
  exists useclass tollbooth link',
    Link.attrs link !! "@useclass" = Some useclass /\
    Link.attrs link !! "@tollbooth" = Some tollbooth /\
    Network.links network' !! i = Some link' /\
    ((2 <= useclass)%Q /\ (useclass <= 3)%Q ->
     Link.attrs link' !! "@hov_length" = Some (Link.length link)) /\
    (~ ((2 <= useclass)%Q /\ (useclass <= 3)%Q) ->
     Link.attrs link' !! "@hov_length" = Some 0%Q) /\
    ((inject_Z (valuetoll_start_tollbooth_code (tolls (config self))) <= tollbooth)%Q ->
     Link.attrs link' !! "@toll_length" = Some (Link.length link)) /\
    ((tollbooth < inject_Z (valuetoll_start_tollbooth_code (tolls (config self))))%Q ->
     Link.attrs link' !! "@toll_length" = Some 0%Q) /\
    forall a, a <> "@hov_length" -> a <> "@toll_length" ->
              Link.attrs link' !! a = Link.attrs link !! a.
Proof.
  unfold _calc_link_skim_lengths. intros H Hi.
  apply rbind_Ok in H as (links & Hlinks & [= <-]). simpl.
  destruct (rmap_lookup _ _ _ _ _ Hlinks Hi) as (link' & Hlink & Hi').
  apply rbind_Ok in Hlink as (useclass & Huc & Hlink). apply get_Ok in Huc.
  apply rbind_Ok in Hlink as (link1 & Hhov & Hlink).
  apply rbind_Ok in Hlink as (tollbooth & Htb & Hlink). apply get_Ok in Htb.
  set (hov := if Py.le 2 useclass && Py.le useclass 3 then Link.length link else 0%Q).
  assert (link1 = Link.with_attrs link (<["@hov_length" := hov]> (Link.attrs link))) as ->.
  { subst hov. by destruct (_ && _); apply set_Ok in Hhov as [-> _]. }
  simpl in Htb. rewrite lookup_insert_ne in Htb by done.
  set (tl := if Py.ge tollbooth (inject_Z (valuetoll_start_tollbooth_code (tolls (config self))))
             then Link.length link else 0%Q).
  assert (link' = Link.with_attrs link
                    (<["@toll_length" := tl]> (<["@hov_length" := hov]> (Link.attrs link))))
    as ->.
  { subst tl. by destruct (Py.ge _ _); apply set_Ok in Hlink as [-> _]. }
  exists useclass, tollbooth. eexists. split_and!; [done|done|exact Hi'|..]; simpl.
  - intros [H2 H3]. rewrite lookup_insert_ne, lookup_insert_eq by done. subst hov.
    apply le_true in H2, H3. by rewrite H2, H3.
  - intros Hn. rewrite lookup_insert_ne, lookup_insert_eq by done. subst hov.
    destruct (Py.le 2 useclass) eqn:H2; [|done].
    destruct (Py.le useclass 3) eqn:H3; [|done].
    apply le_true in H2, H3. tauto.
  - intros Hge. rewrite lookup_insert_eq. subst tl. unfold Py.ge.
    apply le_true in Hge. by rewrite Hge.
  - intros Hlt. rewrite lookup_insert_eq. subst tl. unfold Py.ge.
    destruct (Py.le _ tollbooth) eqn:Hle; [|done].
    apply le_true in Hle. by apply Qle_not_lt in Hle.
  - intros a Ha1 Ha2. by rewrite !lookup_insert_ne.
Qed.

Lemma X2_skim_lengths_witness :
  exists link',
    Network.links
      (returned (example_network [])
         (_calc_link_skim_lengths (example_self (example_tolls false) ["am"])
            (example_network [example_link 12 [("@hov_length", 7%Q); ("@toll_length", 0%Q)]]),
          example_state 0 0 ∅)) !! 0%nat = Some link' /\
    Link.attrs link' !! "@hov_length" = Some 0%Q /\
    Link.attrs link' !! "@toll_length" = Some 2%Q.
Proof.
  destruct (X2_skim_lengths (example_self (example_tolls false) ["am"])
              (example_network [example_link 12 [("@hov_length", 7%Q); ("@toll_length", 0%Q)]])
              (returned (example_network [])
                 (_calc_link_skim_lengths (example_self (example_tolls false) ["am"])
                    (example_network
                       [example_link 12 [("@hov_length", 7%Q); ("@toll_length", 0%Q)]]),
                  example_state 0 0 ∅))
              0%nat (example_link 12 [("@hov_length", 7%Q); ("@toll_length", 0%Q)]))
    as (useclass & tollbooth & link' & Huc & Htb & Hi & _ & Hhov & Htoll & _); [evaluate..|].
  assert (useclass = 0%Q) as ->. { apply (inj Some). rewrite <- Huc. by vm_compute. }
  assert (tollbooth = 12%Q) as ->. { apply (inj Some). rewrite <- Htb. by vm_compute. }
  exists link'. split_and!; [exact Hi|apply Hhov|apply Htoll].
  - intros [H _]. by vm_compute in H.
  - by vm_compute.
Defined.

(** ** Class costs *)

Lemma cost_not_toll_like (x : string) (a : string) :
  a ∈ ["@tollbooth"; "@tollseg"; "@useclass"] -> "@cost_" +:+ x <> a.
Proof.
  intros Ha E. rewrite !elem_of_cons, elem_of_nil in Ha.
  destruct Ha as [->|[->|[->|[]]]]; cbv in E; congruence.
Qed.

(** The sum of the toll attributes of a class on a link. *)
Lemma toll_value_Ok (link : Link.t) (toll_attrs : list string) :
  forall (acc toll_value : Q),
    rfold (fun acc toll_attr => v ← Link.get link toll_attr; Ok (acc + v)%Q) toll_attrs acc
    = Ok toll_value ->
    exists tolls,
      Forall2 (fun a v => Link.attrs link !! a = Some v) toll_attrs tolls /\
      toll_value = fold_left Qplus tolls acc.
Proof.
  induction toll_attrs as [|a toll_attrs IH]; simpl; intros acc toll_value H.
  - injection H as <-. exists []. by split; [constructor|].
  - apply rbind_Ok in H as (acc1 & H1 & H).
    apply rbind_Ok in H1 as (v & Hv & [= <-]). apply get_Ok in Hv.
    destruct (IH _ _ H) as (tolls & Htolls & ->).
    exists (v :: tolls). split; [by constructor|done].
Qed.

(** A loop over things outside a loop over the links is, for each link, a
    loop over the things. *)
Lemma rfold_rmap_link {B} (body : B -> Link.t -> result Link.t) (xs : list B) :
  forall (network network' : Network.t) (i : nat) (link : Link.t),
    rfold (fun network x =>
             links ← rmap (body x) (Network.links network);
             Ok (Network.with_links network links)) xs network = Ok network' ->
    Network.links network !! i = Some link ->
    exists link',
      Network.links network' !! i = Some link' /\
      rfold (fun link x => body x link) xs link = Ok link'.
Proof.
  induction xs as [|x xs IH]; simpl; intros network network' i link H Hi.
  - injection H as <-. eauto.
  - apply rbind_Ok in H as (network1 & H1 & H).
    apply rbind_Ok in H1 as (links & Hlinks & [= <-]).
    destruct (rmap_lookup _ _ _ _ _ Hlinks Hi) as (link1 & Hlink1 & Hi1).
    destruct (IH _ _ i link1 H Hi1) as (link' & Hi' & Hrest).
    exists link'. split; [done|]. by rewrite Hlink1.
Qed.

(** X3: after [_calc_link_class_costs], when the classes have distinct
    cost attributes and no cost attribute is among the toll attributes of a
    class, the cost of every class on every link is
    length * operating cost per mile + (sum of the class's toll attributes
    on the link) * toll factor, the factor being 1 when the class has none;
    the attributes that are not cost attributes are unchanged. *)
Theorem X3_class_costs
    (self : Component) (network network' : Network.t) (i : nat) (link : Link.t) :
  let cost (c : AssignClass) := "@cost_" +:+ Py.lower (name c) in
  NoDup (cost <$> classes (config self)) ->
  (forall c c', c ∈ classes (config self) -> c' ∈ classes (config self) ->
                cost c' ∉ toll c) ->
  _calc_link_class_costs self network = Ok network' ->
  Network.links network !! i = Some link ->
  exists link',
    Network.links network' !! i = Some link' /\
    (forall c, c ∈ classes (config self) ->
       exists tolls,
         Forall2 (fun a v => Link.attrs link !! a = Some v) (toll c) tolls /\
         Link.attrs link' !! cost c
         = Some (Link.length link * operating_cost_per_mile c
                 + fold_left Qplus tolls 0 * default 1 (toll_factor c))%Q) /\
    (forall a, a ∉ cost <$> classes (config self) ->
               Link.attrs link' !! a = Link.attrs link !! a).
Proof.
  intros cost Hnd Hsep H Hi. unfold _calc_link_class_costs in H.
  destruct (rfold_rmap_link _ _ _ _ _ _ H Hi) as (link' & Hi' & Hloop). clear H Hi.
  exists link'. split; [done|]. clear Hi'.
  revert link link' Hnd Hsep Hloop.
  induction (classes (config self)) as [|c cs IH]; intros link link' Hnd Hsep Hloop.
  - simpl in Hloop. injection Hloop as <-. split; [|done]. intros c Hc. by inversion Hc.
  - simpl in Hloop. apply rbind_Ok in Hloop as (link1 & H1 & Hloop).
    apply rbind_Ok in H1 as (toll_value & Htv & H1).
    apply toll_value_Ok in Htv as (tolls & Htolls & ->).
    apply set_Ok in H1 as [-> _]. fold (cost c) in Hloop.
    rewrite fmap_cons in Hnd. apply NoDup_cons in Hnd as [Hc Hnd].
    destruct (IH _ _ Hnd (fun c1 c2 H1 H2 => Hsep c1 c2 (list_elem_of_further _ _ _ H1)
                                                   (list_elem_of_further _ _ _ H2)) Hloop)
      as [Hcosts Hother].
    simpl in *. split.
    + intros c' Hc'. apply elem_of_cons in Hc' as [->|Hc'].
      * exists tolls. split; [done|]. rewrite Hother by done. apply lookup_insert_eq.
      * destruct (Hcosts c' Hc') as (tolls' & Htolls' & Hcost). exists tolls'.
        split; [|done].
        assert (Forall (fun a => a <> cost c) (toll c')) as Hne.
        { apply Forall_forall. intros a Ha ->.
          apply (Hsep c' c); [by right|left|done]. }
        clear -Htolls' Hne. induction Htolls' as [|a v toll_attrs tolls' Hv _ IHt];
          [constructor|].
        apply Forall_cons in Hne as [Ha Hne].
        constructor; [|by apply IHt]. by rewrite lookup_insert_ne in Hv.
    + intros a Ha. rewrite ?fmap_cons in Ha. apply not_elem_of_cons in Ha as [Ha1 Ha2].
      rewrite Hother by done. by apply lookup_insert_ne.
Qed.

Lemma X3_class_costs_witness :
  exists link' tolls,
    Network.links
      (returned (example_network [])
         (_calc_link_class_costs (example_self (example_tolls false) ["am"])
            (example_network [example_link 1 [("@cost_da", 0%Q); ("@bridgetoll_da", 250%Q);
                                              ("@valuetoll_da", 0%Q)]]),
          example_state 0 0 ∅)) !! 0%nat = Some link' /\
    Forall2 (fun a v => Link.attrs (example_link 1 [("@cost_da", 0%Q); ("@bridgetoll_da", 250%Q);
                                                    ("@valuetoll_da", 0%Q)]) !! a = Some v)
            ["@bridgetoll_da"; "@valuetoll_da"] tolls /\
    Link.attrs link' !! "@cost_da" = Some (2 * 17 + fold_left Qplus tolls 0 * 1)%Q.
Proof.
  pose (self := example_self (example_tolls false) ["am"]).
  pose (link := example_link 1 [("@cost_da", 0%Q); ("@bridgetoll_da", 250%Q);
                                ("@valuetoll_da", 0%Q)]).
  destruct (X3_class_costs self (example_network [link])
              (returned (example_network [])
                 (_calc_link_class_costs self (example_network [link]), example_state 0 0 ∅))
              0%nat link)
    as (link' & Hi & Hcosts & _).
  - apply (bool_decide_unpack _). by vm_compute.
  - intros c c' Hc Hc'. apply list_elem_of_singleton in Hc as ->.
    apply list_elem_of_singleton in Hc' as ->.
    apply (bool_decide_unpack _). by vm_compute.
  - by vm_compute.
  - by vm_compute.
  - destruct (Hcosts example_class) as (tolls & Htolls & Hcost); [by left|].
    exists link', tolls. split_and!; [exact Hi|exact Htolls|exact Hcost].
Defined.

(** ** Exclusions *)

Lemma apply_exclusions_Ok (mode_code : string) (modes_set : gset string)
    (link_values : gmap string bool) (criteria : list string) (result : gset string) :
  _apply_exclusions criteria mode_code modes_set link_values = Ok result ->
  (result = modes_set /\ exists c, c ∈ criteria /\ link_values !! c = Some true) \/
  (result = modes_set ∪ {[mode_code]} /\
   forall c, c ∈ criteria -> link_values !! c = Some false).
Proof.
  revert result. induction criteria as [|c criteria IH]; simpl; intros result H.
  - injection H as <-. right. split; [done|]. intros c Hc. by inversion Hc.
  - apply rbind_Ok in H as (excluded & Hc & H).
    unfold Py.getitem in Hc. destruct (link_values !! c) as [b|] eqn:Hv; [|done].
    injection Hc as ->. destruct excluded.
    + injection H as <-. left. split; [done|]. exists c. split; [left|done].
    + destruct (IH _ H) as [[-> (c' & Hc' & Hv')]|[-> Hall]].
      * left. split; [done|]. exists c'. split; [by right|done].
      * right. split; [done|]. intros c' Hc'.
        apply elem_of_cons in Hc' as [->|Hc']; [done|by apply Hall].
Qed.

Lemma apply_exclusions_reach (mode_code : string) (modes_set : gset string)
    (link_values : gmap string bool) (before : list string) (c : string)
    (after : list string) :
  (forall b, b ∈ before -> link_values !! b = Some false) ->
  _apply_exclusions (before ++ c :: after) mode_code modes_set link_values
  = match link_values !! c with
    | Some true => Ok modes_set
    | Some false => _apply_exclusions after mode_code modes_set link_values
    | None => Raise (KeyError c)
    end.
Proof.
  induction before as [|b before IH]; simpl; intros Hbefore.
  - unfold Py.getitem. by destruct (link_values !! c) as [[]|].
  - unfold Py.getitem. rewrite (Hbefore b) by left. simpl.
    apply IH. intros b' Hb'. apply Hbefore. by right.
Qed.

(** X4: [_apply_exclusions] returns the set it was given, with the mode
    code added exactly when every criterion is false for the link; it never
    takes a mode away. The first criterion that is true ends the search:
    the criteria after it are not looked up, unknown ones included. A
    criterion that is reached and is not in the table raises [KeyError]. *)
Theorem X4_apply_exclusions
    (mode_code : string) (modes_set : gset string) (link_values : gmap string bool) :
  (forall criteria result,
      _apply_exclusions criteria mode_code modes_set link_values = Ok result ->
      (result = modes_set /\ exists c, c ∈ criteria /\ link_values !! c = Some true) \/
      (result = modes_set ∪ {[mode_code]} /\
       forall c, c ∈ criteria -> link_values !! c = Some false)) /\
  (forall before c after,
      (forall b, b ∈ before -> link_values !! b = Some false) ->
      link_values !! c = Some true ->
      _apply_exclusions (before ++ c :: after) mode_code modes_set link_values
      = Ok modes_set) /\
  (forall before c after,
      (forall b, b ∈ before -> link_values !! b = Some false) ->
      link_values !! c = None ->
      _apply_exclusions (before ++ c :: after) mode_code modes_set link_values
      = Raise (KeyError c)).
Proof.
  split_and!.
  - intros criteria result. apply apply_exclusions_Ok.
  - intros before c after Hbefore Hc.
    by rewrite apply_exclusions_reach, Hc by done.
  - intros before c after Hbefore Hc.
    by rewrite apply_exclusions_reach, Hc by done.
Qed.

Lemma X4_apply_exclusions_witness :
  _apply_exclusions ["is_sr2"; "is_toll_da"; "is_unknown"] "d" {["c"]}
                    {["is_sr2" := false; "is_toll_da" := true]} = Ok {["c"]} /\
  _apply_exclusions ["is_sr2"; "is_unknown"; "is_toll_da"] "d" {["c"]}
                    {["is_sr2" := false; "is_toll_da" := true]}
  = Raise (KeyError "is_unknown").
Proof.
  split.
  - apply (proj1 (proj2 (X4_apply_exclusions "d" {["c"]}
                           {["is_sr2" := false; "is_toll_da" := true]}))
             ["is_sr2"] "is_toll_da" ["is_unknown"]); [|evaluate].
    intros b Hb. apply list_elem_of_singleton in Hb as ->. evaluate.
  - apply (proj2 (proj2 (X4_apply_exclusions "d" {["c"]}
                           {["is_sr2" := false; "is_toll_da" := true]}))
             ["is_sr2"] "is_unknown" ["is_toll_da"]); [|evaluate].
    intros b Hb. apply list_elem_of_singleton in Hb as ->. evaluate.
Defined.

(** The loop of [_apply_exclusions] over the classes. *)
Lemma class_exclusions_Ok (link_values : gmap string bool) (classes : list AssignClass) :
  forall (modes result : gset string),
    rfold (fun modes assign_class =>
             _apply_exclusions (excluded_links assign_class) (mode_code assign_class)
                               modes link_values) classes modes = Ok result ->
    forall m,
      m ∈ result <->
      m ∈ modes \/
      exists c, c ∈ classes /\ mode_code c = m /\
                forall k, k ∈ excluded_links c -> link_values !! k = Some false.
Proof.
  induction classes as [|c classes IH]; simpl; intros modes result H m.
  - injection H as <-. split; [by left|]. intros [?|(c & Hc & _)]; [done|by inversion Hc].
  - apply rbind_Ok in H as (modes1 & H1 & H). rewrite (IH _ _ H m). clear IH H.
    destruct (apply_exclusions_Ok _ _ _ _ _ H1) as [[-> (k & Hk & Hv)]|[-> Hall]].
    + split.
      * intros [?|(c' & Hc' & ? & ?)]; [by left|]. right. exists c'. split; [by right|done].
      * intros [?|(c' & Hc' & Hm & Hfalse)]; [by left|].
        apply elem_of_cons in Hc' as [->|Hc']; [|right; eauto].
        rewrite (Hfalse k Hk) in Hv. done.
    + rewrite elem_of_union, elem_of_singleton. split.
      * intros [[?| -> ]|(c' & Hc' & ? & ?)]; [by left| |].
        -- right. exists c. split; [left|done].
        -- right. exists c'. split; [by right|done].
      * intros [?|(c' & Hc' & Hm & Hfalse)]; [by left; left|].
        apply elem_of_cons in Hc' as [->|Hc']; [by left; right|right; eauto].
Qed.

Lemma is_toll_inj (g1 g2 : string) : "is_toll_" +:+ g1 = "is_toll_" +:+ g2 -> g1 = g2.
Proof. intros H. cbv in H. congruence. Qed.

(** The per-link table of the criteria. *)
Lemma exclude_links_map_Ok (dst_veh_groups : list string) (link : Link.t)
    (link_values : gmap string bool) :
  exclude_links_map dst_veh_groups link = Ok link_values ->
  exists useclass,
    Link.attrs link !! "@useclass" = Some useclass /\
    link_values !! "is_sr" = Some (Py.eq useclass 2 || Py.eq useclass 3) /\
    link_values !! "is_sr2" = Some (Py.eq useclass 2) /\
    link_values !! "is_sr3" = Some (Py.eq useclass 3) /\
    link_values !! "is_auto_only"
    = Some (Py.eq useclass 2 || Py.eq useclass 3 || Py.eq useclass 4) /\
    forall g, g ∈ dst_veh_groups ->
      exists v, Link.attrs link !! valuetoll g = Some v /\
                link_values !! ("is_toll_" +:+ g) = Some (Py.gt v 0).
Proof.
  unfold exclude_links_map. intros H.
  apply rbind_Ok in H as (useclass & Huc & H). apply get_Ok in Huc.
  exists useclass. split; [done|].
  set (base := dict _) in H.
  assert (forall (groups : list string) (m values : gmap string bool),
             rfold (fun m dst_veh =>
                      v ← Link.get link (valuetoll dst_veh);
                      Ok (<["is_toll_" +:+ dst_veh := Py.gt v 0]> m)) groups m = Ok values ->
             (forall k, (forall g, g ∈ groups -> k <> "is_toll_" +:+ g) ->
                        values !! k = m !! k) /\
             forall g, g ∈ groups ->
               exists v, Link.attrs link !! valuetoll g = Some v /\
                         values !! ("is_toll_" +:+ g) = Some (Py.gt v 0)) as Hloop.
  { induction groups as [|g0 groups IH]; simpl; intros m values Hrun.
    - injection Hrun as <-. split; [done|]. intros g Hg. by inversion Hg.
    - apply rbind_Ok in Hrun as (m1 & H1 & Hrun).
      apply rbind_Ok in H1 as (v0 & Hv0 & [= <-]). apply get_Ok in Hv0.
      destruct (IH _ _ Hrun) as [Hother Hgroups]. split.
      + intros k Hk. rewrite Hother by (intros g Hg; apply Hk; by right).
        apply lookup_insert_ne, not_eq_sym, Hk. left.
      + intros g Hg. destruct (decide (g ∈ groups)) as [Hin|Hnin]; [by apply Hgroups|].
        apply elem_of_cons in Hg as [->|?]; [|done].
        exists v0. split; [done|]. rewrite Hother; [apply lookup_insert_eq|].
        intros g Hg E. apply is_toll_inj in E. by subst. }
  destruct (Hloop _ _ _ H) as [Hother Hgroups]. split_and!; [..|done].
  all: rewrite Hother by (intros g _ E; cbv in E; congruence); by vm_compute.
Qed.

(** ** The modes of a link *)

(** What the body of the last loop of [_set_link_modes] makes of a link. *)
Lemma link_modes_Ok (self : Component) (maz : MazToMaz) (link link' : Link.t) :
  link_modes self maz link = Ok link' ->
  exists maz_link : bool,
    (if run_maz_assignment (config self)
     then exists i j, Link.i_node link !! "@maz_id" = Some i /\
                      Link.j_node link !! "@maz_id" = Some j /\
                      maz_link = Py.gt (i + j) 0
     else maz_link = false) /\
    if maz_link
    then link' = Link.with_modes link (Link.modes link ∪ {[maz_mode_code maz]})
    else exists drive_link,
        Link.attrs link !! "@drive_link" = Some drive_link /\
        if Py.truthy drive_link
        then exists link_values,
            exclude_links_map (dst_vehicle_group_names (tolls (config self))) link
            = Ok link_values /\
            link' = Link.with_modes link (Link.modes link') /\
            forall m,
              m ∈ Link.modes link' <->
              m ∈ Link.modes link \/
              (m = maz_mode_code maz /\
               forall k, k ∈ maz_excluded_links maz -> link_values !! k = Some false) \/
              exists c, c ∈ classes (config self) /\ mode_code c = m /\
                        forall k, k ∈ excluded_links c -> link_values !! k = Some false
        else link' = link.
Proof.
  unfold link_modes. intros H.
  apply rbind_Ok in H as (maz_link & Hmaz & H). exists maz_link. split.
  { destruct (run_maz_assignment _); [|by injection Hmaz].
    apply rbind_Ok in Hmaz as (i & Hi & Hmaz). apply rbind_Ok in Hmaz as (j & Hj & [= <-]).
    unfold Link.node_get, Link.not_defined in Hi, Hj.
    destruct (Link.i_node link !! _) eqn:Ei; [|done].
    destruct (Link.j_node link !! _) eqn:Ej; [|done].
    injection Hi as ->. injection Hj as ->. eauto. }
  destruct maz_link; [by injection H|].
  apply rbind_Ok in H as (drive_link & Hdrive & H). apply get_Ok in Hdrive.
  exists drive_link. split; [done|].
  destruct (Py.truthy drive_link); simpl in H; [|by injection H].
  apply rbind_Ok in H as (link_values & Hvalues & H).
  apply rbind_Ok in H as (modes1 & Hmodes1 & H).
  apply rbind_Ok in H as (modes2 & Hmodes2 & [= <-]).
  exists link_values. split_and!; [done|by destruct link|]. simpl.
  intros m. rewrite (class_exclusions_Ok _ _ _ _ Hmodes2 m).
  destruct (apply_exclusions_Ok _ _ _ _ _ Hmodes1) as [[-> (k & Hk & Hv)]|[-> Hall]].
  - split; [intros [?|?]; eauto|]. intros [?|[[_ Hfalse]|?]]; eauto.
    rewrite (Hfalse k Hk) in Hv. done.
  - rewrite elem_of_union, elem_of_singleton. split.
    + intros [[?| ->]|?]; eauto.
    + intros [?|[[-> _]|?]]; eauto.
Qed.



(** ** The modes are computed anew *)

Lemma network_mode_Some (network : Network.t) (code m : string) :
  Network.mode network code = Some m <-> m = code /\ is_Some (Network.modes network !! code).
Proof.
  unfold Network.mode. destruct (Network.modes network !! code); split.
  - intros [= <-]. eauto.
  - by intros [-> _].
  - done.
  - by intros [_ [? ?]].
Qed.

Lemma delete_modes_links (codes : list string) (network network' : Network.t) :
  rfold Network.delete_mode codes network = Ok network' ->
  Network.links network' = Network.links network.
Proof.
  revert network. induction codes as [|code codes IH]; simpl; intros network H.
  - by injection H as <-.
  - apply rbind_Ok in H as (network1 & H1 & H). rewrite (IH _ H).
    unfold Network.delete_mode in H1. destruct (existsb _ _); [done|]. by injection H1 as <-.
Qed.

(** The first part of [_set_link_modes]: the modes in use, of the classes
    and of the MAZ connectors, leave every link, and the generic mode is
    put on the drive links. *)
Lemma reset_modes_Ok (self : Component) (network : Network.t) (reset : MazToMaz * Network.t) :
  reset_modes self network = Ok reset ->
  maz_to_maz (config self) = Some reset.1 /\
  exists used : gset string,
    (forall m, m ∈ used <->
               is_Some (Network.modes network !! m) /\
               (m = maz_mode_code reset.1 \/
                exists c, c ∈ classes (config self) /\ mode_code c = m)) /\
    forall i link,
      Network.links network !! i = Some link ->
      exists drive_link,
        Link.attrs link !! "@drive_link" = Some drive_link /\
        Network.links reset.2 !! i
        = Some (Link.with_modes link
                  (if Py.truthy drive_link
                   then Link.modes link ∖ used ∪ {[generic_highway_mode_code (config self)]}
                   else Link.modes link ∖ used)).
Proof.
  unfold reset_modes. intros H.
  apply rbind_Ok in H as (maz & Hmaz & H).
  destruct (maz_to_maz (config self)) as [maz'|] eqn:Emaz; [|done]. injection Hmaz as ->.
  apply rbind_Ok in H as (links & Hlinks & H).
  apply rbind_Ok in H as (network1 & Hdel & H).
  apply rbind_Ok in H as (network2 & Hcreate & [= <-]). simpl.
  split; [done|].
  set (used := list_to_set _ ∪ _) in *. exists used. split.
  - intros m. subst used. rewrite elem_of_union, elem_of_list_to_set, list_elem_of_omap.
    split.
    + intros [(c & Hc & Hm)|Hm].
      * apply network_mode_Some in Hm as [-> Hex]. split; [done|]. right. eauto.
      * destruct (Network.mode network (maz_mode_code maz)) as [m'|] eqn:E; [|set_solver].
        apply elem_of_singleton in Hm as ->.
        apply network_mode_Some in E as [-> Hex]. split; [done|]. by left.
    + intros [Hex [->|(c & Hc & <-)]].
      * right. assert (Network.mode network (maz_mode_code maz) = Some (maz_mode_code maz))
          as -> by (by apply network_mode_Some). set_solver.
      * left. exists c. split; [done|]. by apply network_mode_Some.
  - intros i link Hi.
    assert (Network.links network2 = links) as ->.
    { unfold Network.create_mode in Hcreate.
      destruct (Network.modes network1 !! _); [done|]. injection Hcreate as <-. simpl.
      by rewrite (delete_modes_links _ _ _ Hdel). }
    destruct (rmap_lookup _ _ _ _ _ Hlinks Hi) as (link1 & Hlink1 & Hi1).
    apply rbind_Ok in Hlink1 as (drive_link & Hdrive & Hlink1). apply get_Ok in Hdrive.
    simpl in Hdrive. exists drive_link. split; [done|]. rewrite Hi1. f_equal.
    destruct (Py.truthy drive_link); [|by injection Hlink1 as <-].
    destruct (Network.mode network (generic_highway_mode_code _)) as [m|] eqn:E; [|done].
    apply network_mode_Some in E as [-> _]. by injection Hlink1 as <-.
Qed.

(** X6: [_set_link_modes] computes the class modes of a drive link anew.
    When MAZ assignment is off and the modes on the link are modes of the
    network, then after [_set_link_modes] the mode code of a class (other
    than the generic code and the code of the MAZ connectors) is on the link
    if and only if some class with that code has no true criterion in the
    table of the link: what the link carried before does not matter. *)
Theorem X6_class_modes_recomputed
    (self : Component) (network network' : Network.t) (i : nat) (link : Link.t)
    (drive_link : Q) :
  _set_link_modes self network = Ok network' ->
  Network.links network !! i = Some link ->
  run_maz_assignment (config self) = false ->
  (forall m, m ∈ Link.modes link -> is_Some (Network.modes network !! m)) ->
  Link.attrs link !! "@drive_link" = Some drive_link ->
  ~ (drive_link == 0)%Q ->
  exists link' link_values maz,
    Network.links network' !! i = Some link' /\
    Link.attrs link' = Link.attrs link /\
    maz_to_maz (config self) = Some maz /\
    exclude_links_map (dst_vehicle_group_names (tolls (config self))) link = Ok link_values /\
    forall c,
      c ∈ classes (config self) ->
      mode_code c <> generic_highway_mode_code (config self) ->
      mode_code c <> maz_mode_code maz ->
      (mode_code c ∈ Link.modes link' <->
       exists c', c' ∈ classes (config self) /\ mode_code c' = mode_code c /\
                  forall k, k ∈ excluded_links c' -> link_values !! k = Some false).
Proof.
  intros H Hi Hmaz Hmodes Hdrive Hne. unfold _set_link_modes in H.
  apply rbind_Ok in H as (reset & Hreset & H).
  apply rbind_Ok in H as (created & Hcreated & H).
  apply rbind_Ok in H as (links & Hlinks & [= <-]). simpl.
  apply reset_modes_Ok in Hreset as (Emaz & used & Hused & Hreset).
  destruct (Hreset i link Hi) as (drive' & Hdrive' & Hi1).
  assert (drive' = drive_link) as -> by congruence.
  assert (Py.truthy drive_link = true) as Htruthy.
  { unfold Py.truthy. apply negb_true_iff, not_true_iff_false.
    intros E. by apply Qeq_bool_iff in E. }
  rewrite Htruthy in Hi1.
  destruct created as [network2 mel]. unfold create_class_modes in Hcreated.
  destruct (create_class_modes_loop _ _ _ _ Hcreated) as [Hlinks2 _]. simpl in *.
  rewrite <- Hlinks2 in Hi1.
  destruct (rmap_lookup _ _ _ _ _ Hlinks Hi1) as (link' & Hlink' & Hi').
  apply link_modes_Ok in Hlink' as (maz_link & Hml & Hlink'). rewrite Hmaz in Hml.
  subst maz_link. destruct Hlink' as (drive' & Hdrive'' & Hlink'). simpl in Hdrive''.
  assert (drive' = drive_link) as -> by congruence. rewrite Htruthy in Hlink'.
  destruct Hlink' as (link_values & Hvalues & Hframe & Hgrant).
  exists link', link_values, reset.1. split_and!; [done|by rewrite Hframe|done|done|].
  intros c Hc Hgen Hnmaz. rewrite Hgrant. simpl. split.
  - intros [Hin|[[E _]|?]]; [|done|done].
    apply elem_of_union in Hin as [Hin|Hin]; [|by apply elem_of_singleton in Hin].
    apply elem_of_difference in Hin as [Hin Hnot]. exfalso. apply Hnot, Hused.
    split; [by apply Hmodes|]. right. eauto.
  - intros ?. by right; right.
Qed.

Lemma X6_class_modes_recomputed_witness :
  let self := example_self (example_tolls false) ["am"] in
  let stale := Link.with_modes (example_link 12 [("@valuetoll_da", 20%Q)]) {["c"; "d"]} in
  let network :=
    Network.mk [stale]
      {["c" := {| mode_type := "AUTO"; mode_description := "car" |};
        "d" := {| mode_type := "AUX_AUTO"; mode_description := "DA" |}]} ∅ in
  exists link',
    Network.links (returned network (_set_link_modes self network, example_state 0 0 ∅))
      !! 0%nat = Some link' /\
    "d" ∉ Link.modes link'.
Proof.
  intros self stale network.
  destruct (X6_class_modes_recomputed self network
              (returned network (_set_link_modes self network, example_state 0 0 ∅))
              0%nat stale 1%Q)
    as (link' & link_values & maz & Hi & _ & Hmaz & Hvalues & Hclass);
    [by vm_compute|by vm_compute|by vm_compute| |by vm_compute|by intros [=]|].
  { intros m Hm. apply elem_of_union in Hm as [Hm|Hm]; apply elem_of_singleton in Hm as ->;
      eexists; vm_compute; reflexivity. }
  match type of Hvalues with
  | ?call = _ =>
      assert (link_values = returned ∅ (call, example_state 0 0 ∅)) as ->
        by (unfold returned; change ((call, example_state 0 0 ∅).1) with call;
            by rewrite Hvalues)
  end.
  injection Hmaz as <-.
  exists link'. split; [exact Hi|]. intros Hin.
  apply (Hclass example_class) in Hin as (c' & Hc' & _ & Hfalse);
    [|by left|by intros [=]|by intros [=]].
  apply list_elem_of_singleton in Hc' as ->.
  specialize (Hfalse "is_toll_da" (list_elem_of_here _ _)).
  by vm_compute in Hfalse.
Defined.

(** ** Volume-delay functions *)

Lemma dict_lookup_Some {V} (pairs : list (string * V)) (k : string) (v : V) :
  dict pairs !! k = Some v -> (k, v) ∈ pairs.
Proof.
  unfold dict.
  assert (forall m : gmap string V,
             fold_left (fun d kv => <[kv.1 := kv.2]> d) pairs m !! k = Some v ->
             (k, v) ∈ pairs \/ m !! k = Some v) as H.
  { induction pairs as [|[k0 v0] pairs IH]; simpl; intros m Hm; [by right|].
    destruct (IH _ Hm) as [?|Hk]; [left; by right|].
    rewrite lookup_insert in Hk. case_decide; [|by right].
    simpl in *. injection Hk as <-. subst. left. left. }
  intros Hk. by destruct (H ∅ Hk) as [?|?].
Qed.

(** A value of the capacity map, or of the critical speed map, comes from
    a row of the lookup table. *)
Lemma capclass_map_lookup (field : CapclassRow -> option Q) (rows : list CapclassRow)
    (k : Z) (v : Q) :
  fold_left (fun m row => match field row with
                          | Some c => <[capclass row := c]> m
                          | None => m
                          end) rows (∅ : gmap Z Q) !! k = Some v ->
  exists row, row ∈ rows /\ capclass row = k /\ field row = Some v.
Proof.
  assert (forall m : gmap Z Q,
             fold_left (fun m row => match field row with
                                     | Some c => <[capclass row := c]> m
                                     | None => m
                                     end) rows m !! k = Some v ->
             (exists row, row ∈ rows /\ capclass row = k /\ field row = Some v) \/
             m !! k = Some v) as H.
  { induction rows as [|row rows IH]; simpl; intros m Hm; [by right|].
    destruct (IH _ Hm) as [(r & Hr & ?)|Hk]; [left; exists r; split; [by right|done]|].
    destruct (field row) as [c|] eqn:Hc; [|by right].
    rewrite lookup_insert in Hk. case_decide; [|by right].
    injection Hk as <-. left. exists row. split; [left|done]. }
  intros Hk. by destruct (H ∅ Hk) as [?|?].
Qed.

Lemma getitem_number_Ok {V} (d : gmap Z V) (x : Q) (v : V) :
  getitem_number d x = Ok v -> exists k, (x == inject_Z k)%Q /\ d !! k = Some v.
Proof.
  unfold getitem_number. destruct (_ =? 0)%Z eqn:Hmod; [|done].
  destruct (d !! _) eqn:Hd; [|done]. intros [= <-].
  eexists. split; [|exact Hd]. apply Z.eqb_eq in Hmod.
  unfold Qeq, inject_Z. simpl. rewrite Z.mul_1_r.
  apply Z.div_exact in Hmod; [|done]. rewrite Z.mul_comm. exact Hmod.
Qed.

(** What [_set_vdf_attributes] makes of a link. *)
Lemma set_vdf_attributes_link (self : Component) (network network' : Network.t)
    (time_period : string) (i : nat) (link : Link.t) :
  _set_vdf_attributes self network time_period = Ok network' ->
  Network.links network !! i = Some link ->
  exists tp row cc lanes ft cap (attrs' : gmap string Q),
    tp ∈ time_periods (controller_config self) /\
    Py.upper (period_name tp) = time_period /\
    row ∈ capclass_lookup (config self) /\
    Link.attrs link !! "@capclass" = Some cc /\
    (cc == inject_Z (capclass row))%Q /\
    capacity row = Some cap /\
    Link.attrs link !! "@lanes" = Some lanes /\
    Link.attrs link !! "@ft" = Some ft /\
    Network.links network' !! i
    = Some (Link.mk (Link.id link) (Link.length link) attrs' (Link.modes link)
                    (if (Py.trunc ft =? 99)%Z then 7%Z else Py.trunc ft)
                    (py_max (py_min (99 # 10) lanes) 1) (Link.i_node link)
                    (Link.j_node link)) /\
    if bool_decide ((if (Py.trunc ft =? 99)%Z then 7%Z else Py.trunc ft) ∈ akcelik_vdfs) then
      exists free_flow_speed,
        Link.attrs link !! "@free_flow_speed" = Some free_flow_speed /\
        if Py.gt free_flow_speed 0 then
          exists row' critical,
            row' ∈ capclass_lookup (config self) /\
            (cc == inject_Z (capclass row'))%Q /\
            critical_speed row' = Some critical /\
            ~ (critical == 0)%Q /\
            attrs' = <["@ja" := (16 * ((Link.length link / critical
                                        - Link.length link / free_flow_speed)
                                       * (Link.length link / critical
                                          - Link.length link / free_flow_speed)))%Q]>
                       (<["@capacity" := (cap * highway_capacity_factor tp * lanes)%Q]>
                          (Link.attrs link))
        else attrs' = <["@capacity" := (cap * highway_capacity_factor tp * lanes)%Q]>
                        (Link.attrs link)
    else attrs' = <["@capacity" := (cap * highway_capacity_factor tp * lanes)%Q]>
                    (Link.attrs link).
Proof.
  unfold _set_vdf_attributes. intros H Hi.
  apply rbind_Ok in H as (factor & Hfactor & H).
  apply rbind_Ok in H as (links & Hlinks & [= <-]). simpl.
  unfold Py.getitem in Hfactor.
  destruct (dict _ !! time_period) as [f|] eqn:Htp; [|done]. injection Hfactor as ->.
  apply dict_lookup_Some, list_elem_of_In, in_map_iff in Htp as (tp & [= Hname <-] & Htp).
  apply list_elem_of_In in Htp.
  destruct (rmap_lookup _ _ _ _ _ Hlinks Hi) as (link' & Hlink & Hi'). clear Hlinks Hi.
  apply rbind_Ok in Hlink as (cc & Hcc & Hlink). apply get_Ok in Hcc.
  apply rbind_Ok in Hlink as (cap & Hcap & Hlink).
  apply getitem_number_Ok in Hcap as (k & Hk & Hcap).
  apply capclass_map_lookup in Hcap as (row & Hrow & <- & Hcap).
  apply rbind_Ok in Hlink as (lanes & Hlanes & Hlink). apply get_Ok in Hlanes.
  apply rbind_Ok in Hlink as (link1 & Hset & Hlink). apply set_Ok in Hset as [-> _].
  apply rbind_Ok in Hlink as (ft & Hft & Hlink). apply get_Ok in Hft. simpl in Hft.
  rewrite lookup_insert_ne in Hft by done.
  apply rbind_Ok in Hlink as (lanes' & Hlanes' & Hlink). apply get_Ok in Hlanes'.
  simpl in Hlanes'. rewrite lookup_insert_ne in Hlanes' by done.
  assert (lanes' = lanes) as -> by congruence.
  exists tp, row, cc, lanes, ft, cap, (Link.attrs link').
  split; [exact Htp|]. split; [exact Hname|]. split; [exact Hrow|]. split; [exact Hcc|].
  split; [exact Hk|]. split; [exact Hcap|]. split; [exact Hlanes|]. split; [exact Hft|].
  rewrite Hi'. clear Hi'.
  destruct (bool_decide (_ ∈ akcelik_vdfs)); [|by injection Hlink as <-].
  apply rbind_Ok in Hlink as (ffs & Hffs & Hlink). apply get_Ok in Hffs. simpl in Hffs.
  rewrite lookup_insert_ne in Hffs by done.
  destruct (Py.gt ffs 0) eqn:Hgt.
  2:{ injection Hlink as <-. split; [done|]. exists ffs. by rewrite Hgt. }
  apply rbind_Ok in Hlink as (cc' & Hcc' & Hlink). apply get_Ok in Hcc'. simpl in Hcc'.
  rewrite lookup_insert_ne in Hcc' by done.
  assert (cc' = cc) as -> by congruence.
  apply rbind_Ok in Hlink as (critical & Hcrit & Hlink).
  apply getitem_number_Ok in Hcrit as (k' & Hk' & Hcrit).
  apply capclass_map_lookup in Hcrit as (row' & Hrow' & <- & Hcrit).
  apply rbind_Ok in Hlink as (t_c & Htc & Hlink).
  apply rbind_Ok in Hlink as (t_o & Hto & Hlink).
  unfold Py.div in Htc, Hto. simpl in Htc, Hto.
  destruct (Qeq_bool critical 0) eqn:Hc0; [done|]. injection Htc as <-.
  destruct (Qeq_bool ffs 0); [done|]. injection Hto as <-.
  apply set_Ok in Hlink as [-> _]. split; [done|].
  exists ffs. split; [done|]. rewrite Hgt. exists row', critical.
  split; [exact Hrow'|]. split; [exact Hk'|]. split; [exact Hcrit|]. split; [|done].
  intros E. apply Qeq_bool_iff in E. congruence.
Qed.



(** ** The akcelik parameter *)

Lemma square_nonneg (x : Q) : (0 <= x * x)%Q.
Proof. unfold Qle, Qmult. simpl. rewrite Z.mul_1_r. apply Z.square_nonneg. Qed.

(** X8: [_set_vdf_attributes] gives [@ja] a new value only on a link whose
    delay function (after the replacement of 99 by 7) is one of the akcelik
    functions and whose free flow speed is positive: then [@ja] is
    16 * (length / critical speed - length / free flow speed)^2, with the
    critical speed of a row of the lookup table for the link's capclass,
    which is not 0, and this value is never negative. On every other link
    [@ja] keeps the value it had. *)
Theorem X8_akcelik_parameter (self : Component) (network network' : Network.t)
    (time_period : string) (i : nat) (link : Link.t) :
  _set_vdf_attributes self network time_period = Ok network' ->
  Network.links network !! i = Some link ->
  exists link' ft,
    Network.links network' !! i = Some link' /\
    Link.attrs link !! "@ft" = Some ft /\
    let vdf := (if (Py.trunc ft =? 99)%Z then 7 else Py.trunc ft)%Z in
    (vdf ∉ akcelik_vdfs -> Link.attrs link' !! "@ja" = Link.attrs link !! "@ja") /\
    (vdf ∈ akcelik_vdfs ->
     exists free_flow_speed,
       Link.attrs link !! "@free_flow_speed" = Some free_flow_speed /\
       ((free_flow_speed <= 0)%Q ->
        Link.attrs link' !! "@ja" = Link.attrs link !! "@ja") /\
       ((0 < free_flow_speed)%Q ->
        exists row cc critical ja,
          row ∈ capclass_lookup (config self) /\
          Link.attrs link !! "@capclass" = Some cc /\
          (cc == inject_Z (capclass row))%Q /\
          critical_speed row = Some critical /\
          ~ (critical == 0)%Q /\
          Link.attrs link' !! "@ja" = Some ja /\
          ja = (16 * ((Link.length link / critical - Link.length link / free_flow_speed)
                      * (Link.length link / critical
                         - Link.length link / free_flow_speed)))%Q /\
          (0 <= ja)%Q)).
Proof.
  intros H Hi.
  destruct (set_vdf_attributes_link _ _ _ _ _ _ H Hi)
    as (tp & row & cc & lanes & ft & cap & attrs' & _ & _ & _ & Hcc & _ & _
        & _ & Hft & Hi' & Hattrs).
  eexists _, ft. split; [exact Hi'|]. split; [exact Hft|]. simpl. split.
  - intros Hnot. rewrite bool_decide_false in Hattrs by done. subst attrs'.
    by rewrite lookup_insert_ne.
  - intros Hin. rewrite bool_decide_true in Hattrs by done.
    destruct Hattrs as (ffs & Hffs & Hattrs). exists ffs. split; [done|]. split.
    + intros Hle. apply gt_false in Hle. rewrite Hle in Hattrs. subst attrs'.
      by rewrite lookup_insert_ne.
    + intros Hpos. apply gt_true in Hpos. rewrite Hpos in Hattrs.
      destruct Hattrs as (row' & critical & Hrow' & Hk' & Hcrit & Hne & ->).
      eexists row', cc, critical, _.
      split; [exact Hrow'|]. split; [exact Hcc|]. split; [exact Hk'|].
      split; [exact Hcrit|]. split; [exact Hne|].
      split; [apply lookup_insert_eq|]. split; [reflexivity|].
      apply Qmult_le_0_compat; [done|apply square_nonneg].
Qed.

Lemma X8_akcelik_parameter_witness :
  let self := example_self (example_tolls false) ["am"] in
  let link := example_link 1 [("@ft", 3%Q); ("@capacity", 0%Q); ("@ja", 0%Q)] in
  exists link' ja,
    Network.links
      (returned (example_network [])
         (_set_vdf_attributes self (example_network [link]) "AM", example_state 0 0 ∅))
      !! 0%nat = Some link' /\
    Link.attrs link' !! "@ja" = Some ja /\ (0 <= ja)%Q.
Proof.
  intros self link.
  destruct (X8_akcelik_parameter self (example_network [link])
              (returned (example_network [])
                 (_set_vdf_attributes self (example_network [link]) "AM",
                  example_state 0 0 ∅))
              "AM" 0%nat link)
    as (link' & ft & Hi & Hft & _ & Hakcelik); [evaluate..|].
  assert (ft = 3%Q) as ->. { apply (inj Some). rewrite <- Hft. by vm_compute. }
  destruct Hakcelik as (ffs & Hffs & _ & Hpos); [by apply (bool_decide_unpack _)|].
  assert (ffs = 60%Q) as ->. { apply (inj Some). rewrite <- Hffs. by vm_compute. }
  destruct Hpos as (row & cc & critical & ja & _ & _ & _ & _ & _ & Hja & _ & Hnonneg);
    [by vm_compute|].
  exists link', ja. split; [exact Hi|]. split; [exact Hja|exact Hnonneg].
Defined.

(** ** Reading the toll table *)





(** ** Validation that passes *)

Lemma find_missing_none (header columns : list string) (s : State) :
  missing_from header columns = [] ->
  find_missing header columns s = (Ok [], s).
Proof.
  unfold find_missing, missing_from.
  assert (forall acc,
             filter (fun column => column ∉ header) columns = [] ->
             mfold (fun missing column =>
                      if bool_decide (column ∈ header) then mret missing
                      else logger "log" ("Tolls file missing column: " +:+ column)
                                  (Some "ERROR") false;;
                           mret (missing ++ [column]))
                   columns acc s = (Ok acc, s)) as H; [|apply H].
  induction columns as [|c columns IH]; simpl; intros acc Hnone; [done|].
  rewrite filter_cons in Hnone. unfold mbind at 1, M_bind at 1.
  destruct (decide (c ∈ header)) as [Hin|Hnin].
  - rewrite bool_decide_true by done. simpl.
    rewrite decide_False in Hnone by (by intros ?). by apply IH.
  - by rewrite decide_True in Hnone by done.
Qed.

(** X10: [validate_inputs] returns without raising exactly when the toll
    file exists and its first line, split at the commas and stripped, has
    every required column; it then has logged nothing and changed nothing.
    (The theorem takes the file to have a first line.) *)
Theorem X10_validate_inputs_passes (self : Component) (s : State)
    (toll_file first : string) (rest : list string) :
  let toll_file_path := get_abs_path self (file_path (tolls (config self))) in
  let header := map Py.strip (Py.split "," first) in
  files s !! toll_file_path = Some toll_file ->
  Py.file_lines toll_file = first :: rest ->
  ((forall column, column ∈ required_columns self -> column ∈ header) ->
   validate_inputs self s = (Ok tt, s)) /\
  (forall s', validate_inputs self s = (Ok tt, s') ->
              s' = s /\ forall column, column ∈ required_columns self -> column ∈ header).
Proof.
  intros toll_file_path header Hfile Hlines.
  assert (forall columns, (forall column, column ∈ columns -> column ∈ header) <->
                          missing_from header columns = []) as Hiff.
  { intros columns. unfold missing_from.
    induction columns as [|c columns IH]; simpl.
    - split; [done|]. intros _ column Hc. by inversion Hc.
    - rewrite filter_cons. destruct (decide (c ∉ header)) as [Hn|Hin].
      + split; [|done]. intros Hall. exfalso. apply Hn, Hall. left.
      + rewrite <- IH. apply dec_stable in Hin. split.
        * intros Hall column Hc. apply Hall. by right.
        * intros Hall column Hc.
          apply elem_of_cons in Hc as [->|Hc]; [done|by apply Hall]. }
  assert (validate_inputs self s
          = (missing ← find_missing header (required_columns self);
             match missing with
             | [] => mret tt
             | _ => lift (Raise (FileFormatError
                      ("Tolls file missing " +:+ pretty (List.length missing)
                       +:+ " columns: " +:+ Py.join ", " missing)))
             end) s) as Hrun.
  { unfold validate_inputs. fold toll_file_path.
    unfold mbind at 1, M_bind at 1, read. simpl. rewrite Hfile. simpl.
    unfold mbind at 1, M_bind at 1, open. by rewrite Hfile, Hlines. }
  split.
  - intros Hall. rewrite Hrun. unfold mbind, M_bind.
    by rewrite (find_missing_none _ _ _ (proj1 (Hiff _) Hall)).
  - intros s' Hok. rewrite Hrun in Hok.
    destruct (find_missing_Ok header (required_columns self) s) as (t & Hfind & _).
    unfold mbind, M_bind in Hok. rewrite Hfind in Hok.
    destruct (missing_from header (required_columns self)) eqn:Hmiss; [|done].
    rewrite (find_missing_none _ _ _ Hmiss) in Hfind. injection Hfind as <-.
    injection Hok as <-. split; [done|]. by apply Hiff.
Qed.

Lemma X10_validate_inputs_passes_witness :
  validate_inputs (example_self (example_tolls false) ["am"]) (example_state 0 0 ∅)
  = (Ok tt, example_state 0 0 ∅).
Proof.
  apply (proj1 (X10_validate_inputs_passes
                  (example_self (example_tolls false) ["am"]) (example_state 0 0 ∅)
                  ("fac_index,tollam_da" +:+ eol +:+ "1010,2.50" +:+ eol
                   +:+ "12010,0.10" +:+ eol)
                  ("fac_index,tollam_da" +:+ eol)
                  ["1010,2.50" +:+ eol; "12010,0.10" +:+ eol] eq_refl eq_refl)).
  intros column Hc. apply (bool_decide_unpack _).
  revert column Hc. apply Forall_forall. apply (bool_decide_unpack _). by vm_compute.
Defined.
